(** * soci-wrapper: the build-and-publish pipeline of [main.go]

    A shallow embedding of [main.go] (package [main] of soci-wrapper) and
    the properties of its pipeline.

    The Go program is a straight line of calls into external collaborators
    (the registry client, the OCI / containerd / SOCI stores, the index
    builder, the operating system), each followed by an error check.  The
    embedding keeps that shape:

    - a Go [error] is a value with a message, and for the errors of the
      collaborators an identity and possibly a cause; a possibly-nil error
      is an [option error];
    - every collaborator is a field of a [World] record giving the answer
      the collaborator returns, so that a theorem quantified over [World]
      speaks about every behaviour of the collaborators;
    - the run-time effects are threaded by a small monad [M]: the file
      system is the state, the calls and log lines are appended to a trace,
      and a run ends by returning, by panicking or by [os.Exit];
    - [defer] is a combinator that runs the deferred call when the body has
      ended, whether it returned or panicked. *)

From Stdlib Require Import String Ascii List ZArith Bool Lia.
From Stdlib Require Import Permutation Sorted DecimalString.
Import ListNotations.

Local Open Scope string_scope.
Local Open Scope Z_scope.

Set Implicit Arguments.

(** ** Values of the Go program *)

(** A Go [error] value; a possibly-nil [error] is an [option error].
    [errors_New text] is the value [errors.New(text)] makes in [main.go].
    An error made by a collaborator is a value of its own: it has an
    identity (two errors with the same text are two values) and a text,
    and it may wrap another error, its cause ([fmt.Errorf] with [%w]).
    So an error that was wrapped, or replaced by a new error with the
    same text, is not equal to the original. *)
Inductive error : Type :=
| errors_New (text : string)
| error_value (identity : N) (text : string)
| wrapping (identity : N) (text : string) (cause : error).

(** The [Error()] method, and [errors.Unwrap]. *)
Definition Error (e : error) : string :=
  match e with
  | errors_New text => text
  | error_value _ text => text
  | wrapping _ text _ => text
  end.

Definition Unwrap (e : error) : option error :=
  match e with
  | wrapping _ _ cause => Some cause
  | _ => None
  end.

(** The result of a Go call returning [(T, error)] whose value is only
    looked at when the error is nil. *)
Inductive result (T : Type) : Type :=
| Ok (v : T)
| Err (e : error).
Arguments Ok {T} v.
Arguments Err {T} e.

Module strings.

(** [strings.HasPrefix(s, prefix)]: whether [s] begins with [prefix]. *)
Definition HasPrefix (s prefix : string) : bool := String.prefix prefix s.

End strings.

Module path.

(** [path.Join(a, b)]: empty elements are ignored and the others are
    joined with a slash.  ([path.Clean], which Go applies to the joined
    path, changes nothing on the paths of this program: a directory
    returned by [os.MkdirTemp] under [/tmp] joined with a constant
    name.) *)
Definition Join (a b : string) : string :=
  match a, b with
  | EmptyString, _ => b
  | _, EmptyString => a
  | _, _ => a ++ "/" ++ b
  end.

End path.

Module context.

(** A [context.Context], as far as this program uses it: the values
    attached to it, the most recent first. *)
Definition Context : Type := list (string * string).
Definition TODO : Context := [].
Definition WithValue (ctx : Context) (key val : string) : Context :=
  (key, val) :: ctx.

End context.

Module ocispec.

Record Descriptor : Type :=
  { MediaType : string; Digest : string; Size : Z }.

(** [ocispec.Platform], abbreviated to its printed form. *)
Definition Platform : Type := string.

End ocispec.

Module images.

Record Image : Type := { Name : string; Target : ocispec.Descriptor }.

End images.

Module time.

(** A [time.Time] is an instant, here in nanoseconds. *)
Definition Time : Type := Z.
Definition Before (t u : Time) : bool := t <? u.

End time.

Module soci.

Record IndexDescriptorInfo : Type :=
  { Descriptor : ocispec.Descriptor; CreatedAt : time.Time }.

End soci.

(** The handles the pipeline passes around.  They are opaque to
    [main.go]; each remembers what it was opened on. *)
Record Registry : Type := { registry_url : string }.
Record SociStore : Type := { soci_store_root : string }.
Record ContentStore : Type := { content_store_root : string }.
Record ArtifactsDb : Type := { artifacts_db_path : string }.
Record IndexBuilder : Type :=
  { builder_content : ContentStore;
    builder_store : SociStore;
    builder_db : ArtifactsDb;
    builder_min_layer_size : Z;
    builder_platform : ocispec.Platform }.

(** ** The world outside [main.go] *)

(** What each collaborator answers; [None] is a nil error.  The
    collaborators are the packages of the repository used by [main.go]
    ([soci-wrapper/utils/registry], [soci-wrapper/utils/fs]) and the
    libraries (the Go standard library, containerd, oras, the SOCI
    snapshotter); none of them is part of [main.go], and the program is
    verified for whatever they answer. *)
Record World : Type :=
  { w_Init : string -> result Registry;
    w_ValidateImageManifest : Registry -> string -> string -> option error;
    w_Pull : Registry -> string -> SociStore -> string
             -> result ocispec.Descriptor;
    w_Push : Registry -> SociStore -> ocispec.Descriptor -> string
             -> option error;
    w_CalculateFreeSpace : string -> Z;
    (** the random part of the name [os.MkdirTemp] picks, or its error *)
    w_MkdirTemp : string -> string -> result string;
    (** the error [os.RemoveAll] meets when it cannot remove a path *)
    w_RemoveAll : string -> option error;
    w_oci_New : string -> option error;
    w_local_NewStore : string -> option error;
    w_NewDB : string -> option error;
    w_DefaultSpec : ocispec.Platform;
    w_NewIndexBuilder : ContentStore -> SociStore -> ArtifactsDb -> Z
                        -> ocispec.Platform -> option error;
    w_Build : IndexBuilder -> images.Image -> option error;
    w_GetIndexDescriptorCollection :
      images.Image -> list ocispec.Platform
      -> result (list soci.IndexDescriptorInfo);
    (** [sort.Slice], on the values of the slice *)
    w_sort_Slice : forall A : Type, list A -> (A -> A -> bool) -> list A }.

(** The contract of [sort.Slice]: given a [less] that is a strict weak
    order, the slice is rearranged (nothing added, nothing lost) so that no
    element is less than one before it.  The sort need not be stable. *)
Definition strict_weak_order (A : Type) (less : A -> A -> bool) : Prop :=
  (forall a, less a a = false) /\
  (forall a b c, less a b = true -> less b c = true -> less a c = true) /\
  (forall a b c, less a b = false -> less b c = false -> less a c = false).

(** [not_after less a b]: [b] does not come before [a]. *)
Definition not_after (A : Type) (less : A -> A -> bool) (a b : A) : Prop :=
  less b a = false.

Definition sort_Slice_contract
  (sort : forall A : Type, list A -> (A -> A -> bool) -> list A) : Prop :=
  forall (A : Type) (l : list A) (less : A -> A -> bool),
    strict_weak_order less ->
    Permutation l (sort A l less) /\
    StronglySorted (not_after less) (sort A l less).

(** A sort meeting the contract: insertion into a sorted list. *)
Fixpoint insert_sorted (A : Type) (less : A -> A -> bool) (x : A)
  (l : list A) : list A :=
  match l with
  | [] => [x]
  | y :: l' => if less x y then x :: l else y :: insert_sorted less x l'
  end.

Definition insertion_sort (A : Type) (l : list A) (less : A -> A -> bool)
  : list A :=
  fold_left (fun sorted x => insert_sorted less x sorted) l [].

(** ** What a run leaves behind *)

(** The calls into the collaborators. *)
Inductive call : Type :=
| Call_Init (registryUrl : string)
| Call_ValidateImageManifest (repo digest : string)
| Call_Pull (repo : string) (store : SociStore) (digest : string)
| Call_Push (store : SociStore) (desc : ocispec.Descriptor) (repo : string)
| Call_CalculateFreeSpace (dir : string)
| Call_MkdirTemp (dir pattern : string)
| Call_RemoveAll (dir : string)
| Call_oci_New (root : string)
| Call_local_NewStore (root : string)
| Call_NewDB (file : string)
| Call_NewIndexBuilder (minLayerSize : Z) (platform : ocispec.Platform)
| Call_Build (image : images.Image)
| Call_GetIndexDescriptorCollection (image : images.Image)
    (platforms : list ocispec.Platform).

Inductive level : Type := Info | Warn | Error_.

(** One entry of the trace of a run: a log line (with the context it was
    logged under and the error it reports, if any), a line on standard
    output, or a call together with the error it returned. *)
Inductive event : Type :=
| Logged (lvl : level) (ctx : context.Context) (msg : string)
    (err : option error)
| Printed (line : string)
| Called (c : call) (err : option error).

(** The file system: the paths that exist. *)
Definition Files : Type := list string.

(** [within dir p]: [p] is [dir] or lies below it. *)
Definition within (dir p : string) : bool :=
  String.eqb p dir || strings.HasPrefix p (dir ++ "/").

Definition exists_within (dir : string) (files : Files) : bool :=
  existsb (within dir) files.

(** A path comes into existence (nothing changes when it is there). *)
Definition add_path (p : string) (files : Files) : Files :=
  if existsb (String.eqb p) files then files else p :: files.

Definition remove_within (dir : string) (files : Files) : Files :=
  filter (fun p => negb (within dir p)) files.

(** How a Go function ends: it returns, it panics, or the process is
    ended by [os.Exit]. *)
Inductive outcome (A : Type) : Type :=
| Returned (a : A)
| Panicked (msg : string)
| Exited (code : Z).
Arguments Returned {A} a.
Arguments Panicked {A} msg.
Arguments Exited {A} code.

(** ** The monad of runs *)

Definition M (A : Type) : Type := Files -> outcome A * Files * list event.

Definition run (A : Type) (m : M A) (files : Files)
  : outcome A * Files * list event := m files.

Definition ret (A : Type) (a : A) : M A :=
  fun files => (Returned a, files, []).

Definition bind (A B : Type) (m : M A) (k : A -> M B) : M B :=
  fun files =>
    match m files with
    | (Returned a, files1, t1) =>
        match k a files1 with
        | (o, files2, t2) => (o, files2, (t1 ++ t2)%list)
        end
    | (Panicked msg, files1, t1) => (Panicked msg, files1, t1)
    | (Exited code, files1, t1) => (Exited code, files1, t1)
    end.

Definition emit (e : event) : M unit :=
  fun files => (Returned tt, files, [e]).

Definition panic (A : Type) (msg : string) : M A :=
  fun files => (Panicked msg, files, []).

Definition get_files : M Files :=
  fun files => (Returned files, files, []).

Definition set_files (files : Files) : M unit :=
  fun _ => (Returned tt, files, []).

(** [defer cleanup; body]: the deferred call runs when [body] has
    returned or panicked, and the function then ends the way [body] did
    (a deferred call that panics replaces that).  [os.Exit] runs no
    deferred call. *)
Definition defer (A : Type) (cleanup : M unit) (body : M A) : M A :=
  fun files =>
    match body files with
    | (Exited code, files1, t1) => (Exited code, files1, t1)
    | (o, files1, t1) =>
        match cleanup files1 with
        | (Returned _, files2, t2) => (o, files2, (t1 ++ t2)%list)
        | (Panicked msg, files2, t2) => (Panicked msg, files2, (t1 ++ t2)%list)
        | (Exited code, files2, t2) => (Exited code, files2, (t1 ++ t2)%list)
        end
    end.

Declare Scope go_scope.
Delimit Scope go_scope with go.
Notation "x <- c ;; k" := (bind c (fun x => k))
  (at level 61, c at next level, right associativity) : go_scope.
Notation "c ;; k" := (bind c (fun _ => k))
  (at level 61, right associativity) : go_scope.
(** [x, err := c; if err != nil { return h }; k] *)
Notation "x <~ c 'orelse' e => h ;; k" :=
  (bind c (fun r => match r with Ok x => k | Err e => h end))
  (at level 61, c at next level, e name, h at next level,
   right associativity) : go_scope.
(** [err := c; if err != nil { return h }; k] *)
Notation "'ensure' c 'orelse' e => h ;; k" :=
  (bind c (fun r => match r with None => k | Some e => h end))
  (at level 61, c at next level, e name, h at next level,
   right associativity) : go_scope.
Local Open Scope go_scope.

(** [%d] of [fmt.Sprintf]. *)
Definition decimal (z : Z) : string := NilZero.string_of_int (Z.to_int z).

(** [s[i]] on a slice: a run-time panic outside the bounds. *)
Definition at_index (A : Type) (s : list A) (i : Z) : option A :=
  if i <? 0 then None else nth_error s (Z.to_nat i).

Definition index (A : Type) (s : list A) (i : Z) : M A :=
  match at_index s i with
  | Some a => ret a
  | None =>
      panic A ("runtime error: index out of range [" ++ decimal i
               ++ "] with length " ++ decimal (Z.of_nat (length s)))
  end.

Definition len (A : Type) (s : list A) : Z := Z.of_nat (length s).

Definition result_error (T : Type) (r : result T) : option error :=
  match r with Ok _ => None | Err e => Some e end.

(** ** The pure part of [main.go] *)

Definition artifactsStoreName : string := "store".
Definition artifactsDbName : string := "artifacts.db".

(** Returns ecr registry url from an image action event. *)
Definition buildEcrRegistryUrl (region account : string) : string :=
  let awsDomain :=
    if strings.HasPrefix region "cn" then ".amazonaws.com.cn"
    else ".amazonaws.com" in
  account ++ ".dkr.ecr." ++ region ++ awsDomain.

(** The condition of the specification on the region code: it starts
    with [cn]. *)
Definition starts_with_cn (region : string) : Prop :=
  exists rest, region = "cn" ++ rest.

(** ** The collaborators, as operations of the monad *)

Section Program.

Variable w : World.

(** Modelled from the spec: the package [soci-wrapper/utils/log] is not
    among the sources.  The specification has errors logged with their
    context; a log call is an entry of the trace with its level, the
    context it is given, its message and its error. *)
Definition log_Info (ctx : context.Context) (msg : string) : M unit :=
  emit (Logged Info ctx msg None).

Definition log_Warn (ctx : context.Context) (msg : string) : M unit :=
  emit (Logged Warn ctx msg None).

Definition log_Error (ctx : context.Context) (msg : string) (err : error)
  : M unit :=
  emit (Logged Error_ ctx msg (Some err)).

Definition fmt_Println (line : string) : M unit := emit (Printed line).

Definition os_Exit (code : Z) : M unit :=
  fun files => (Exited code, files, []).

(** A successful call that opens a store or a file leaves it on disk. *)
Definition creates (p : string) : M unit :=
  files <- get_files;;
  set_files (add_path p files).

Definition registryutils_Init (ctx : context.Context) (registryUrl : string)
  : M (result Registry) :=
  let r := w_Init w registryUrl in
  emit (Called (Call_Init registryUrl) (result_error r));;
  ret r.

Definition Registry_ValidateImageManifest (registry : Registry)
  (ctx : context.Context) (repo digest : string) : M (option error) :=
  let err := w_ValidateImageManifest w registry repo digest in
  emit (Called (Call_ValidateImageManifest repo digest) err);;
  ret err.

Definition Registry_Pull (registry : Registry) (ctx : context.Context)
  (repo : string) (sociStore : SociStore) (digest : string)
  : M (result ocispec.Descriptor) :=
  let r := w_Pull w registry repo sociStore digest in
  emit (Called (Call_Pull repo sociStore digest) (result_error r));;
  ret r.

Definition Registry_Push (registry : Registry) (ctx : context.Context)
  (sociStore : SociStore) (indexDesc : ocispec.Descriptor) (repo : string)
  : M (option error) :=
  let err := w_Push w registry sociStore indexDesc repo in
  emit (Called (Call_Push sociStore indexDesc repo) err);;
  ret err.

Definition fs_CalculateFreeSpace (dir : string) : M Z :=
  emit (Called (Call_CalculateFreeSpace dir) None);;
  ret (w_CalculateFreeSpace w dir).

(** [os.MkdirTemp(dir, pattern)]: a new directory whose name is the
    pattern followed by a random string; the empty name and the error
    when it cannot be created. *)
Definition os_MkdirTemp (dir pattern : string) : M (string * option error) :=
  match w_MkdirTemp w dir pattern with
  | Ok random =>
      let name := path.Join dir (pattern ++ random) in
      emit (Called (Call_MkdirTemp dir pattern) None);;
      files <- get_files;;
      set_files (name :: files);;
      ret (name, None)
  | Err e =>
      emit (Called (Call_MkdirTemp dir pattern) (Some e));;
      ret ("", Some e)
  end.

(** [os.RemoveAll(path)]: removes the path and everything below it; nil
    when the path does not exist; when the removal fails, the error, and
    the path is still there. *)
Definition removal_error (dir : string) (files : Files) : option error :=
  if exists_within dir files then w_RemoveAll w dir else None.

Definition os_RemoveAll (dir : string) : M (option error) :=
  files <- get_files;;
  let err := removal_error dir files in
  emit (Called (Call_RemoveAll dir) err);;
  match err with
  | None => set_files (remove_within dir files)
  | Some _ => ret tt
  end;;
  ret err.

Definition oci_NewWithContext (ctx : context.Context) (root : string)
  : M (result SociStore) :=
  match w_oci_New w root with
  | None =>
      emit (Called (Call_oci_New root) None);;
      creates root;;
      ret (Ok {| soci_store_root := root |})
  | Some e =>
      emit (Called (Call_oci_New root) (Some e));;
      ret (Err e)
  end.

Definition local_NewStore (root : string) : M (result ContentStore) :=
  match w_local_NewStore w root with
  | None =>
      emit (Called (Call_local_NewStore root) None);;
      creates root;;
      ret (Ok {| content_store_root := root |})
  | Some e =>
      emit (Called (Call_local_NewStore root) (Some e));;
      ret (Err e)
  end.

Definition soci_NewDB (file : string) : M (result ArtifactsDb) :=
  match w_NewDB w file with
  | None =>
      emit (Called (Call_NewDB file) None);;
      creates file;;
      ret (Ok {| artifacts_db_path := file |})
  | Some e =>
      emit (Called (Call_NewDB file) (Some e));;
      ret (Err e)
  end.

Definition platforms_DefaultSpec : ocispec.Platform := w_DefaultSpec w.

Definition soci_NewIndexBuilder (contentStore : ContentStore)
  (sociStore : SociStore) (artifactsDb : ArtifactsDb) (minLayerSize : Z)
  (platform : ocispec.Platform) : M (result IndexBuilder) :=
  let err :=
    w_NewIndexBuilder w contentStore sociStore artifactsDb minLayerSize
      platform in
  emit (Called (Call_NewIndexBuilder minLayerSize platform) err);;
  ret match err with
      | None => Ok {| builder_content := contentStore;
                      builder_store := sociStore;
                      builder_db := artifactsDb;
                      builder_min_layer_size := minLayerSize;
                      builder_platform := platform |}
      | Some e => Err e
      end.

Definition IndexBuilder_Build (builder : IndexBuilder)
  (ctx : context.Context) (image : images.Image) : M (option error) :=
  let err := w_Build w builder image in
  emit (Called (Call_Build image) err);;
  ret err.

Definition soci_GetIndexDescriptorCollection (ctx : context.Context)
  (contentStore : ContentStore) (artifactsDb : ArtifactsDb)
  (image : images.Image) (ps : list ocispec.Platform)
  : M (result (list soci.IndexDescriptorInfo)) :=
  let r := w_GetIndexDescriptorCollection w image ps in
  emit (Called (Call_GetIndexDescriptorCollection image ps) (result_error r));;
  ret r.

Definition sort_Slice (A : Type) (x : list A) (less : A -> A -> bool)
  : list A :=
  w_sort_Slice w x less.

(** ** [main.go] *)

(** Create a temp directory in /tmp. *)
Definition createTempDir (ctx : context.Context)
  : M (string * option error) :=
  freeSpace <- fs_CalculateFreeSpace "/tmp";;
  log_Info ctx ("There are " ++ decimal freeSpace
                ++ " bytes of free space in /tmp directory");;
  log_Info ctx "Creating a directory to store images and SOCI artifacts";;
  os_MkdirTemp "/tmp" "TODO".

(** Clean up the data written by the Lambda. *)
Definition cleanUp (ctx : context.Context) (dataDir : string) : M unit :=
  log_Info ctx ("Removing all files in " ++ dataDir);;
  err <- os_RemoveAll dataDir;;
  match err with
  | Some err => log_Error ctx "Clean up error" err
  | None => ret tt
  end.

(** Init containerd store. *)
Definition initContainerdStore (dataDir : string) : M (result ContentStore) :=
  local_NewStore (path.Join dataDir artifactsStoreName).

(** Init OCI artifact store. *)
Definition initOciStore (ctx : context.Context) (dataDir : string)
  : M (result SociStore) :=
  oci_NewWithContext ctx (path.Join dataDir artifactsStoreName).

(** Init SOCI artifact store: the OCI store wrapped as a SOCI store. *)
Definition initSociStore (ctx : context.Context) (dataDir : string)
  : M (result SociStore) :=
  oci_NewWithContext ctx (path.Join dataDir artifactsStoreName).

(** Init a new instance of SOCI artifacts DB. *)
Definition initSociArtifactsDb (dataDir : string) : M (result ArtifactsDb) :=
  let artifactsDbPath := path.Join dataDir artifactsDbName in
  artifactsDb <~ soci_NewDB artifactsDbPath orelse err => ret (Err err);;
  ret (Ok artifactsDb).

Definition created_before (a b : soci.IndexDescriptorInfo) : bool :=
  time.Before (soci.CreatedAt a) (soci.CreatedAt b).

(** Build soci index for an image and returns its [ocispec.Descriptor]. *)
Definition buildIndex (ctx : context.Context) (dataDir : string)
  (sociStore : SociStore) (image : images.Image)
  : M (result ocispec.Descriptor) :=
  log_Info ctx "Building SOCI index";;
  let platform := platforms_DefaultSpec in
  artifactsDb <~ initSociArtifactsDb dataDir orelse err => ret (Err err);;
  containerdStore <~ initContainerdStore dataDir
    orelse err => ret (Err err);;
  builder <~ soci_NewIndexBuilder containerdStore sociStore artifactsDb 0
               platform
    orelse err => ret (Err err);;
  ensure IndexBuilder_Build builder ctx image orelse err => ret (Err err);;
  indexDescriptorInfos <~
    soci_GetIndexDescriptorCollection ctx containerdStore artifactsDb image
      [platform]
    orelse err => ret (Err err);;
  if len indexDescriptorInfos =? 0 then
    ret (Err (errors_New "No SOCI indices found in OCI store"))
  else
    let indexDescriptorInfos :=
      sort_Slice indexDescriptorInfos created_before in
    last <- index indexDescriptorInfos (len indexDescriptorInfos - 1);;
    ret (Ok (soci.Descriptor last)).

(** Log and return the lambda handler error. *)
Definition lambdaError (ctx : context.Context) (msg : string) (err : error)
  : M (string * option error) :=
  log_Error ctx msg err;;
  ret (msg, Some err).

Definition process (ctx : context.Context)
  (repo digest region account : string) : M (string * option error) :=
  let registryUrl := buildEcrRegistryUrl region account in
  let ctx := context.WithValue ctx "RegistryURL" registryUrl in
  registry <~ registryutils_Init ctx registryUrl
    orelse err => lambdaError ctx "Remote registry initialization error" err;;
  err <- Registry_ValidateImageManifest registry ctx repo digest;;
  match err with
  | Some err =>
      log_Warn ctx ("Image manifest validation error: " ++ Error err);;
      (* Returning a non error to skip retries *)
      ret ("Exited early due to manifest validation error", None)
  | None =>
      (* Directory in lambda storage to store images and SOCI artifacts *)
      created <- createTempDir ctx;;
      let '(dataDir, err) := created in
      log_Info ctx ("The path to the dataDir: " ++ dataDir);;
      match err with
      | Some err => lambdaError ctx "Directory create error" err
      | None =>
          defer (cleanUp ctx dataDir)
            (sociStore <~ initSociStore ctx dataDir
               orelse err =>
                 lambdaError ctx "OCI storage initialization error" err;;
             desc <~ Registry_Pull registry ctx repo sociStore digest
               orelse err => lambdaError ctx "Image pull error" err;;
             let image := {| images.Name := repo ++ "@" ++ digest;
                             images.Target := desc |} in
             indexDescriptor <~ buildIndex ctx dataDir sociStore image
               orelse err => lambdaError ctx "SOCI index build error" err;;
             let ctx :=
               context.WithValue ctx "SOCIIndexDigest"
                 (ocispec.Digest indexDescriptor) in
             ensure Registry_Push registry ctx sociStore indexDescriptor repo
               orelse err => lambdaError ctx "SOCI index push error" err;;
             log_Info ctx "Successfully built and pushed SOCI index";;
             ret ("Successfully built and pushed SOCI index", None))
      end
  end.

Definition usage : string :=
  "Usage: soci-wrapper REPOSITORY_NAME IMAGE_DIGEST AWS_REGION AWS_ACCOUNT".

(** [main], on the value of [os.Args]. *)
Definition main (Args : list string) : M unit :=
  (if len Args <? 4 then
     fmt_Println usage;;
     os_Exit 1
   else ret tt);;
  repo <- index Args 1;;
  digest <- index Args 2;;
  region <- index Args 3;;
  account <- index Args 4;;
  _ <- process context.TODO repo digest region account;;
  ret tt.

End Program.

(** The exit status of the operating-system process: 0 when [main]
    returns, the argument of [os.Exit], and 2 when the Go run time ends
    the program on a panic. *)
Definition exit_status (A : Type) (o : outcome A) : Z :=
  match o with
  | Returned _ => 0
  | Panicked _ => 2
  | Exited code => code
  end.

Definition outcome_of (A : Type) (r : outcome A * Files * list event)
  : outcome A := fst (fst r).
Definition files_of (A : Type) (r : outcome A * Files * list event)
  : Files := snd (fst r).
Definition trace_of (A : Type) (r : outcome A * Files * list event)
  : list event := snd r.

(** ** Concrete worlds *)

(** The steps at which a collaborator can fail. *)
Inductive step : Type :=
| AtInit | AtValidate | AtMkdirTemp | AtOciNew | AtPull | AtNewDB
| AtLocalStore | AtNewIndexBuilder | AtBuild | AtList | AtPush | AtRemoveAll.

Definition step_eqb (a b : step) : bool :=
  match a, b with
  | AtInit, AtInit | AtValidate, AtValidate | AtMkdirTemp, AtMkdirTemp
  | AtOciNew, AtOciNew | AtPull, AtPull | AtNewDB, AtNewDB
  | AtLocalStore, AtLocalStore | AtNewIndexBuilder, AtNewIndexBuilder
  | AtBuild, AtBuild | AtList, AtList | AtPush, AtPush
  | AtRemoveAll, AtRemoveAll => true
  | _, _ => false
  end.

Definition fails (failing : list step) (s : step) : bool :=
  existsb (step_eqb s) failing.

Definition failure (failing : list step) (s : step) (msg : string)
  : option error :=
  if fails failing s then Some (errors_New msg) else None.

Definition failure_or (T : Type) (failing : list step) (s : step)
  (msg : string) (v : T) : result T :=
  if fails failing s then Err (errors_New msg) else Ok v.

Definition pulled_image : ocispec.Descriptor :=
  {| ocispec.MediaType := "application/vnd.oci.image.manifest.v1+json";
     ocispec.Digest := "sha256:1111";
     ocispec.Size := 1024 |}.

Definition index_descriptor (digest : string) : ocispec.Descriptor :=
  {| ocispec.MediaType := "application/vnd.oci.image.manifest.v1+json";
     ocispec.Digest := digest;
     ocispec.Size := 2048 |}.

Definition index_info (digest : string) (createdAt : Z)
  : soci.IndexDescriptorInfo :=
  {| soci.Descriptor := index_descriptor digest; soci.CreatedAt := createdAt |}.

(** Three indices recorded for one image; the second is the latest. *)
Definition three_indices : list soci.IndexDescriptorInfo :=
  [index_info "sha256:aaaa" 1700000000;
   index_info "sha256:bbbb" 1700000300;
   index_info "sha256:cccc" 1700000100].

(** The world in which the collaborators of [failing] fail, each with an
    error of its own, the others succeed, and the index builder has
    recorded [infos]. *)
Definition scenario (failing : list step)
  (infos : list soci.IndexDescriptorInfo) : World :=
  {| w_Init := fun url =>
       failure_or failing AtInit "no credentials" {| registry_url := url |};
     w_ValidateImageManifest := fun _ _ _ =>
       failure failing AtValidate "unsupported media type";
     w_Pull := fun _ _ _ _ =>
       failure_or failing AtPull "connection reset" pulled_image;
     w_Push := fun _ _ _ _ => failure failing AtPush "push denied";
     w_CalculateFreeSpace := fun _ => 536870912;
     w_MkdirTemp := fun _ _ =>
       failure_or failing AtMkdirTemp "no space left on device" "2908557746";
     w_RemoveAll := fun _ => failure failing AtRemoveAll "permission denied";
     w_oci_New := fun _ => failure failing AtOciNew "invalid OCI layout";
     w_local_NewStore := fun _ =>
       failure failing AtLocalStore "cannot create content store";
     w_NewDB := fun _ => failure failing AtNewDB "cannot open database";
     w_DefaultSpec := "linux/amd64";
     w_NewIndexBuilder := fun _ _ _ _ _ =>
       failure failing AtNewIndexBuilder "bad builder option";
     w_Build := fun _ _ => failure failing AtBuild "layer not found";
     w_GetIndexDescriptorCollection := fun _ _ =>
       failure_or failing AtList "database is closed" infos;
     w_sort_Slice := insertion_sort |}.

(** The invocation used in the examples. *)
Definition sample_run (world : World) : outcome (string * option error)
                                        * Files * list event :=
  run (process world context.TODO "app" "sha256:1111" "us-west-2"
         "123456789012") [].

(** ** Reading a trace *)

(** The removals of a run: what [os.RemoveAll] was called on, and the
    error it returned. *)
Fixpoint removals (tr : list event) : list (string * option error) :=
  match tr with
  | [] => []
  | Called (Call_RemoveAll dir) err :: rest => (dir, err) :: removals rest
  | _ :: rest => removals rest
  end.

(** The last call of a run into a collaborator. *)
Fixpoint last_call (tr : list event) : option (call * option error) :=
  match tr with
  | [] => None
  | Called c err :: rest =>
      match last_call rest with
      | Some later => Some later
      | None => Some (c, err)
      end
  | _ :: rest => last_call rest
  end.











(** The message [process] reports when a call fails: the fault
    categories of the pipeline.  A failed manifest validation and a
    failed removal of the workspace are not among them. *)
Definition fault_message (c : call) : option string :=
  match c with
  | Call_Init _ => Some "Remote registry initialization error"
  | Call_MkdirTemp _ _ => Some "Directory create error"
  | Call_oci_New _ => Some "OCI storage initialization error"
  | Call_Pull _ _ _ => Some "Image pull error"
  | Call_NewDB _ | Call_local_NewStore _ | Call_NewIndexBuilder _ _
  | Call_Build _ | Call_GetIndexDescriptorCollection _ _ =>
      Some "SOCI index build error"
  | Call_Push _ _ _ => Some "SOCI index push error"
  | Call_ValidateImageManifest _ _ | Call_RemoveAll _
  | Call_CalculateFreeSpace _ => None
  end.

(** A fault of a run: a collaborator of one of the fault categories
    returned an error, or the index builder recorded no index. *)
Inductive fault (w : World) (tr : list event) : string -> error -> Prop :=
| collaborator_fault (c : call) (e : error) (msg : string) :
    In (Called c (Some e)) tr ->
    fault_message c = Some msg ->
    fault w tr msg e
| no_index_fault (image : images.Image) (ps : list ocispec.Platform) :
    In (Called (Call_GetIndexDescriptorCollection image ps) None) tr ->
    w_GetIndexDescriptorCollection w image ps = Ok [] ->
    fault w tr "SOCI index build error"
      (errors_New "No SOCI indices found in OCI store").

(** The same world with another behaviour of [os.RemoveAll]. *)
Definition with_RemoveAll (w : World) (removal : string -> option error)
  : World :=
  {| w_Init := w_Init w;
     w_ValidateImageManifest := w_ValidateImageManifest w;
     w_Pull := w_Pull w;
     w_Push := w_Push w;
     w_CalculateFreeSpace := w_CalculateFreeSpace w;
     w_MkdirTemp := w_MkdirTemp w;
     w_RemoveAll := removal;
     w_oci_New := w_oci_New w;
     w_local_NewStore := w_local_NewStore w;
     w_NewDB := w_NewDB w;
     w_DefaultSpec := w_DefaultSpec w;
     w_NewIndexBuilder := w_NewIndexBuilder w;
     w_Build := w_Build w;
     w_GetIndexDescriptorCollection := w_GetIndexDescriptorCollection w;
     w_sort_Slice := w_sort_Slice w |}.

Definition skipped : string * option error :=
  ("Exited early due to manifest validation error", None).

Definition succeeded : string * option error :=
  ("Successfully built and pushed SOCI index", None).

(** Invocations of the command line: too few arguments, one argument
    short, and complete. *)
Definition two_arguments : list string :=
  ["soci-wrapper"; "app"; "sha256:1111"].

Definition three_arguments : list string :=
  ["soci-wrapper"; "app"; "sha256:1111"; "us-west-2"].

Definition four_arguments : list string :=
  ["soci-wrapper"; "app"; "sha256:1111"; "us-west-2"; "123456789012"].

(** The end of [buildIndex], once the collection of index descriptors has
    been read. *)
Definition select_latest (w : World) (infos : list soci.IndexDescriptorInfo)
  : outcome (result ocispec.Descriptor) :=
  if len infos =? 0 then
    Returned (Err (errors_New "No SOCI indices found in OCI store"))
  else
    let sorted := w_sort_Slice w infos created_before in
    match at_index sorted (len sorted - 1) with
    | Some last => Returned (Ok (soci.Descriptor last))
    | None =>
        Panicked
          ("runtime error: index out of range [" ++ decimal (len sorted - 1)
           ++ "] with length " ++ decimal (Z.of_nat (length sorted)))
    end.

Definition sample_store : SociStore :=
  {| soci_store_root := "/tmp/TODO2908557746/store" |}.

Definition sample_image : images.Image :=
  {| images.Name := "app@sha256:1111"; images.Target := pulled_image |}.

(** ** Reading the calls of a run *)

(** The calls of a run, in order. *)
Fixpoint calls (tr : list event) : list call :=
  match tr with
  | [] => []
  | Called c _ :: rest => c :: calls rest
  | _ :: rest => calls rest
  end.

(** The Go function a call goes to. *)
Definition call_name (c : call) : string :=
  match c with
  | Call_Init _ => "registryutils.Init"
  | Call_ValidateImageManifest _ _ => "Registry.ValidateImageManifest"
  | Call_Pull _ _ _ => "Registry.Pull"
  | Call_Push _ _ _ => "Registry.Push"
  | Call_CalculateFreeSpace _ => "fs.CalculateFreeSpace"
  | Call_MkdirTemp _ _ => "os.MkdirTemp"
  | Call_RemoveAll _ => "os.RemoveAll"
  | Call_oci_New _ => "oci.NewWithContext"
  | Call_local_NewStore _ => "local.NewStore"
  | Call_NewDB _ => "soci.NewDB"
  | Call_NewIndexBuilder _ _ => "soci.NewIndexBuilder"
  | Call_Build _ => "IndexBuilder.Build"
  | Call_GetIndexDescriptorCollection _ _ =>
      "soci.GetIndexDescriptorCollection"
  end.

Definition call_names (tr : list event) : list string :=
  map call_name (calls tr).

(** The calls of [process] and [buildIndex] in the order of the source
    text, the deferred removal apart. *)
Definition pipeline : list string :=
  ["registryutils.Init"; "Registry.ValidateImageManifest";
   "fs.CalculateFreeSpace"; "os.MkdirTemp"; "oci.NewWithContext";
   "Registry.Pull"; "soci.NewDB"; "local.NewStore"; "soci.NewIndexBuilder";
   "IndexBuilder.Build"; "soci.GetIndexDescriptorCollection";
   "Registry.Push"].

(** Whether a run created its workspace. *)
Definition provisioned (tr : list event) : bool :=
  existsb (fun ev => match ev with
                     | Called (Call_MkdirTemp _ _) None => true
                     | _ => false
                     end) tr.

(** The workspace directory [os.MkdirTemp("/tmp", "TODO")] creates when it
    appends [random]. *)
Definition workspace (random : string) : string :=
  path.Join "/tmp" ("TODO" ++ random).

(** Two indices recorded at the same instant, and an earlier one. *)
Definition tied_indices : list soci.IndexDescriptorInfo :=
  [index_info "sha256:aaaa" 1700000300;
   index_info "sha256:bbbb" 1700000300;
   index_info "sha256:cccc" 1700000100].

(** ** The stages of the pipeline, on the answers of the world *)

(** The store, the database and the index builder of a workspace, and the
    image of a request, as [process] and [buildIndex] make them. *)
Definition store_of (random : string) : SociStore :=
  {| soci_store_root := path.Join (workspace random) artifactsStoreName |}.

Definition content_of (random : string) : ContentStore :=
  {| content_store_root := path.Join (workspace random) artifactsStoreName |}.

Definition db_of (random : string) : ArtifactsDb :=
  {| artifacts_db_path := path.Join (workspace random) artifactsDbName |}.

Definition builder_of (w : World) (random : string) : IndexBuilder :=
  {| builder_content := content_of random;
     builder_store := store_of random;
     builder_db := db_of random;
     builder_min_layer_size := 0;
     builder_platform := w_DefaultSpec w |}.

Definition image_of (repo digest : string) (desc : ocispec.Descriptor)
  : images.Image :=
  {| images.Name := repo ++ "@" ++ digest; images.Target := desc |}.

(** How far the collaborators let a request get.  Each stage says what
    the world answers to the calls up to it; nothing is said about the
    run. *)
Definition Validated (w : World) (repo digest region account : string)
  (registry : Registry) : Prop :=
  w_Init w (buildEcrRegistryUrl region account) = Ok registry
  /\ w_ValidateImageManifest w registry repo digest = None.

Definition WorkspaceReady (w : World) (repo digest region account : string)
  (registry : Registry) (random : string) : Prop :=
  Validated w repo digest region account registry
  /\ w_MkdirTemp w "/tmp" "TODO" = Ok random.

Definition StorageReady (w : World) (repo digest region account : string)
  (registry : Registry) (random : string) : Prop :=
  WorkspaceReady w repo digest region account registry random
  /\ w_oci_New w (path.Join (workspace random) artifactsStoreName) = None.

Definition Pulled (w : World) (repo digest region account : string)
  (registry : Registry) (random : string) (desc : ocispec.Descriptor)
  : Prop :=
  StorageReady w repo digest region account registry random
  /\ w_Pull w registry repo (store_of random) digest = Ok desc.

Definition BuilderReady (w : World) (repo digest region account : string)
  (registry : Registry) (random : string) (desc : ocispec.Descriptor)
  : Prop :=
  Pulled w repo digest region account registry random desc
  /\ w_NewDB w (path.Join (workspace random) artifactsDbName) = None
  /\ w_local_NewStore w (path.Join (workspace random) artifactsStoreName)
     = None
  /\ w_NewIndexBuilder w (content_of random) (store_of random)
       (db_of random) 0 (w_DefaultSpec w) = None.

Definition Indexed (w : World) (repo digest region account : string)
  (registry : Registry) (random : string) (desc : ocispec.Descriptor)
  : Prop :=
  BuilderReady w repo digest region account registry random desc
  /\ w_Build w (builder_of w random) (image_of repo digest desc) = None.

(** The faults of a request other than a failed manifest validation and
    a failed removal of the workspace: the stage reached, the collaborator
    that fails next and the error it answers (or the empty collection of
    indices), with the message of the fault category. *)
Inductive pipeline_fault (w : World) (repo digest region account : string)
  : string -> error -> Prop :=
| registry_initialisation_fault (e : error) :
    w_Init w (buildEcrRegistryUrl region account) = Err e ->
    pipeline_fault w repo digest region account
      "Remote registry initialization error" e
| workspace_creation_fault (registry : Registry) (e : error) :
    Validated w repo digest region account registry ->
    w_MkdirTemp w "/tmp" "TODO" = Err e ->
    pipeline_fault w repo digest region account "Directory create error" e
| artifact_store_fault (registry : Registry) (random : string) (e : error) :
    WorkspaceReady w repo digest region account registry random ->
    w_oci_New w (path.Join (workspace random) artifactsStoreName) = Some e ->
    pipeline_fault w repo digest region account
      "OCI storage initialization error" e
| pull_fault (registry : Registry) (random : string) (e : error) :
    StorageReady w repo digest region account registry random ->
    w_Pull w registry repo (store_of random) digest = Err e ->
    pipeline_fault w repo digest region account "Image pull error" e
| metadata_database_fault (registry : Registry) (random : string)
    (desc : ocispec.Descriptor) (e : error) :
    Pulled w repo digest region account registry random desc ->
    w_NewDB w (path.Join (workspace random) artifactsDbName) = Some e ->
    pipeline_fault w repo digest region account "SOCI index build error" e
| content_store_fault (registry : Registry) (random : string)
    (desc : ocispec.Descriptor) (e : error) :
    Pulled w repo digest region account registry random desc ->
    w_NewDB w (path.Join (workspace random) artifactsDbName) = None ->
    w_local_NewStore w (path.Join (workspace random) artifactsStoreName)
    = Some e ->
    pipeline_fault w repo digest region account "SOCI index build error" e
| index_builder_fault (registry : Registry) (random : string)
    (desc : ocispec.Descriptor) (e : error) :
    Pulled w repo digest region account registry random desc ->
    w_NewDB w (path.Join (workspace random) artifactsDbName) = None ->
    w_local_NewStore w (path.Join (workspace random) artifactsStoreName)
    = None ->
    w_NewIndexBuilder w (content_of random) (store_of random)
      (db_of random) 0 (w_DefaultSpec w) = Some e ->
    pipeline_fault w repo digest region account "SOCI index build error" e
| build_fault (registry : Registry) (random : string)
    (desc : ocispec.Descriptor) (e : error) :
    BuilderReady w repo digest region account registry random desc ->
    w_Build w (builder_of w random) (image_of repo digest desc) = Some e ->
    pipeline_fault w repo digest region account "SOCI index build error" e
| listing_fault (registry : Registry) (random : string)
    (desc : ocispec.Descriptor) (e : error) :
    Indexed w repo digest region account registry random desc ->
    w_GetIndexDescriptorCollection w (image_of repo digest desc)
      [w_DefaultSpec w] = Err e ->
    pipeline_fault w repo digest region account "SOCI index build error" e
| nothing_recorded_fault (registry : Registry) (random : string)
    (desc : ocispec.Descriptor) :
    Indexed w repo digest region account registry random desc ->
    w_GetIndexDescriptorCollection w (image_of repo digest desc)
      [w_DefaultSpec w] = Ok [] ->
    pipeline_fault w repo digest region account "SOCI index build error"
      (errors_New "No SOCI indices found in OCI store")
| push_fault (registry : Registry) (random : string)
    (desc : ocispec.Descriptor) (infos : list soci.IndexDescriptorInfo)
    (indexDescriptor : ocispec.Descriptor) (e : error) :
    Indexed w repo digest region account registry random desc ->
    w_GetIndexDescriptorCollection w (image_of repo digest desc)
      [w_DefaultSpec w] = Ok infos ->
    select_latest w infos = Returned (Ok indexDescriptor) ->
    w_Push w registry (store_of random) indexDescriptor repo = Some e ->
    pipeline_fault w repo digest region account "SOCI index push error" e.

(** The same world with another behaviour of [registry.Push]. *)
Definition with_Push (w : World)
  (push : Registry -> SociStore -> ocispec.Descriptor -> string
          -> option error) : World :=
  {| w_Init := w_Init w;
     w_ValidateImageManifest := w_ValidateImageManifest w;
     w_Pull := w_Pull w;
     w_Push := push;
     w_CalculateFreeSpace := w_CalculateFreeSpace w;
     w_MkdirTemp := w_MkdirTemp w;
     w_RemoveAll := w_RemoveAll w;
     w_oci_New := w_oci_New w;
     w_local_NewStore := w_local_NewStore w;
     w_NewDB := w_NewDB w;
     w_DefaultSpec := w_DefaultSpec w;
     w_NewIndexBuilder := w_NewIndexBuilder w;
     w_Build := w_Build w;
     w_GetIndexDescriptorCollection := w_GetIndexDescriptorCollection w;
     w_sort_Slice := w_sort_Slice w |}.

(** An error of the registry that wraps the error of the transport, and
    the world in which every push is answered with it. *)
Definition access_denied : error :=
  wrapping 7 "push app: access denied"
    (error_value 3 "403 Forbidden").

Definition push_denied : World :=
  with_Push (scenario [] three_indices) (fun _ _ _ _ => Some access_denied).

(** The characters [os.MkdirTemp] appends to the pattern: the decimal
    digits of a random number. *)
Definition is_digit (c : ascii) : bool :=
  (48 <=? nat_of_ascii c)%nat && (nat_of_ascii c <=? 57)%nat.

Fixpoint decimal_digits (s : string) : bool :=
  match s with
  | EmptyString => true
  | String c rest => is_digit c && decimal_digits rest
  end.

(** * Properties *)

(** ** Symbolic execution of the pipeline *)

(** A run is computed as far as the answers of the world are known, and
    split on the next answer when they are not. *)
Ltac unfold_program :=
  unfold sample_run, outcome_of, files_of, trace_of, run, main, process,
    buildIndex, lambdaError, createTempDir, cleanUp, initContainerdStore,
    initOciStore, initSociStore, initSociArtifactsDb, registryutils_Init,
    Registry_ValidateImageManifest, Registry_Pull, Registry_Push,
    fs_CalculateFreeSpace, os_MkdirTemp, os_RemoveAll, oci_NewWithContext,
    local_NewStore, soci_NewDB, soci_NewIndexBuilder, IndexBuilder_Build,
    sort_Slice, platforms_DefaultSpec, soci_GetIndexDescriptorCollection,
    log_Info, log_Warn, log_Error, fmt_Println, os_Exit, creates, index,
    defer, bind, ret, emit, panic, get_files, set_files, result_error in *.

Ltac compute_run :=
  cbn -[append decimal at_index add_path removal_error remove_within
        exists_within within len Z.eqb Z.ltb Z.sub path.Join
        buildEcrRegistryUrl].

Ltac world_case :=
  match goal with
  | |- context [match ?x with _ => _ end] =>
      lazymatch x with
      | context [match _ with _ => _ end] => fail
      | _ => destruct x eqn:?
      end
  | |- context [if ?x then _ else _] =>
      lazymatch x with
      | context [match _ with _ => _ end] => fail
      | _ => destruct x eqn:?
      end
  end.

Ltac execute := unfold_program; repeat (compute_run; try world_case).

(** An event of the trace is one of the listed ones. *)
Ltac which_event :=
  repeat match goal with
    | H : _ \/ _ |- _ => destruct H as [H|H]
    | H : In _ (_ :: _) |- _ => destruct H as [H|H]
    | H : In _ [] |- _ => destruct H
    | H : False |- _ => destruct H
    | H : @eq event _ _ |- _ =>
        first [discriminate H | inversion H; subst; clear H]
    end.

(** ** The registry endpoint *)

Lemma HasPrefix_iff (s prefix : string) :
  strings.HasPrefix s prefix = true <-> exists rest, s = prefix ++ rest.
Proof.
  unfold strings.HasPrefix. revert s.
  induction prefix as [|a p IH]; intros s.
  - split; [intros _; now exists s | intros _; now destruct s].
  - destruct s as [|b s]; cbn [String.prefix append].
    + split; [discriminate | intros [rest H]; discriminate].
    + destruct (Ascii.ascii_dec a b) as [<-|Hab].
      * rewrite IH. split; intros [rest H]; exists rest; congruence.
      * split; [discriminate | intros [rest H]; congruence].
Qed.

(** C6 — [buildEcrRegistryUrl] is a total function of (region, account)
    that computes [account ++ ".dkr.ecr." ++ region ++ suffix], the suffix
    being [.amazonaws.com.cn] exactly when the region starts with [cn] and
    [.amazonaws.com] otherwise; the two endpoints given by the
    specification are computed as written. *)
Theorem buildEcrRegistryUrl_spec :
  (forall region account,
      (starts_with_cn region /\
       buildEcrRegistryUrl region account
       = account ++ ".dkr.ecr." ++ region ++ ".amazonaws.com.cn")
      \/
      (~ starts_with_cn region /\
       buildEcrRegistryUrl region account
       = account ++ ".dkr.ecr." ++ region ++ ".amazonaws.com")) /\
  buildEcrRegistryUrl "us-west-2" "123456789012"
  = "123456789012.dkr.ecr.us-west-2.amazonaws.com" /\
  buildEcrRegistryUrl "cn-north-1" "123456789012"
  = "123456789012.dkr.ecr.cn-north-1.amazonaws.com.cn".
Proof.
  split; [|split; reflexivity].
  intros region account. unfold buildEcrRegistryUrl, starts_with_cn.
  destruct (strings.HasPrefix region "cn") eqn:E.
  - left. split; [now apply HasPrefix_iff | reflexivity].
  - right. split; [|reflexivity].
    intros H. apply HasPrefix_iff in H. congruence.
Qed.

(** ** The outcomes of [process] *)

(** C1 — For every input on which the manifest validation fails (the
    registry client was initialised and [ValidateImageManifest] answers
    an error for the repository and digest of the request), [process]
    returns the message "Exited early due to manifest validation error"
    with a nil error; the error it returns is never non-nil. *)
Theorem process_skips_invalid_manifest
  (w : World) (ctx : context.Context) (repo digest region account : string)
  (files : Files) (registry : Registry) (err : error) :
  w_Init w (buildEcrRegistryUrl region account) = Ok registry ->
  w_ValidateImageManifest w registry repo digest = Some err ->
  outcome_of (run (process w ctx repo digest region account) files)
  = Returned ("Exited early due to manifest validation error", None)
  /\ forall msg e,
      outcome_of (run (process w ctx repo digest region account) files)
      <> Returned (msg, Some e).
Proof.
  intros Hinit Hinvalid.
  assert (G : outcome_of
                (run (process w ctx repo digest region account) files)
              = Returned
                  ("Exited early due to manifest validation error", None)).
  { unfold_program. rewrite Hinit. compute_run. rewrite Hinvalid.
    reflexivity. }
  split; [exact G|]. intros msg e E. rewrite G in E. discriminate E.
Qed.

Lemma process_skips_invalid_manifest_witness :
  outcome_of (sample_run (scenario [AtValidate] three_indices))
  = Returned ("Exited early due to manifest validation error", None)
  /\ forall msg e,
      outcome_of (sample_run (scenario [AtValidate] three_indices))
      <> Returned (msg, Some e).
Proof.
  apply (@process_skips_invalid_manifest
           (scenario [AtValidate] three_indices) context.TODO "app"
           "sha256:1111" "us-west-2" "123456789012" []
           {| registry_url :=
                "123456789012.dkr.ecr.us-west-2.amazonaws.com" |}
           (errors_New "unsupported media type")).
  - reflexivity.
  - reflexivity.
Defined.

(** A computation that begins with a call begins its trace with it. *)
Lemma trace_starts_with_call
  (A B : Type) (e : event) (a : A) (k : A -> M B) (files : Files) :
  exists rest,
    trace_of (run (bind (bind (emit e) (fun _ => ret a)) k) files)
    = e :: rest.
Proof.
  unfold trace_of, run, bind, emit, ret. cbn.
  destruct (k a files) as [[o files'] t]. now exists t.
Qed.

(** C10 — [process] calls the registry initialisation first, before any
    manifest validation; when that initialisation fails with [e],
    [process] logs and returns "Remote registry initialization error"
    with [e], having called nothing else: no validation, no workspace,
    no removal, and the files are as they were. *)
Theorem process_registry_initialisation
  (w : World) (ctx : context.Context) (repo digest region account : string)
  (files : Files) :
  let registryUrl := buildEcrRegistryUrl region account in
  let r := run (process w ctx repo digest region account) files in
  (exists rest,
      trace_of r
      = Called (Call_Init registryUrl) (result_error (w_Init w registryUrl))
          :: rest) /\
  (forall e,
      w_Init w registryUrl = Err e ->
      r = (Returned ("Remote registry initialization error", Some e),
           files,
           [Called (Call_Init registryUrl) (Some e);
            Logged Error_ (context.WithValue ctx "RegistryURL" registryUrl)
              "Remote registry initialization error" (Some e)])).
Proof.
  intros registryUrl r. subst registryUrl r. split.
  - unfold process, registryutils_Init. apply trace_starts_with_call.
  - intros e He. unfold_program. rewrite He. reflexivity.
Qed.

Lemma process_registry_initialisation_witness :
  sample_run (scenario [AtInit] three_indices)
  = (Returned ("Remote registry initialization error",
               Some (errors_New "no credentials")),
     [],
     [Called (Call_Init "123456789012.dkr.ecr.us-west-2.amazonaws.com")
        (Some (errors_New "no credentials"));
      Logged Error_
        [("RegistryURL", "123456789012.dkr.ecr.us-west-2.amazonaws.com")]
        "Remote registry initialization error"
        (Some (errors_New "no credentials"))]).
Proof.
  apply (proj2 (@process_registry_initialisation
                  (scenario [AtInit] three_indices) context.TODO "app"
                  "sha256:1111" "us-west-2" "123456789012" [])).
  reflexivity.
Defined.

(** ** The command line *)

(** X13 — With fewer than four elements in [os.Args], [main] prints the
    usage line and exits with status 1; nothing else happens. *)
Lemma main_usage_error (w : World) (Args : list string) (files : Files) :
  len Args < 4 ->
  run (main w Args) files = (Exited 1, files, [Printed usage]).
Proof.
  intros H. apply Z.ltb_lt in H. unfold_program. rewrite H. reflexivity.
Qed.

(** X14 — With the four arguments of the usage line, [main] runs
    [process] and returns whatever [process] returned: message and error
    are dropped and the exit status is 0; arguments after the fourth are
    ignored. *)
Lemma main_discards_result
  (w : World) (program repo digest region account : string)
  (rest : list string) (files files' : Files) (tr : list event)
  (result : string * option error) :
  run (process w context.TODO repo digest region account) files
  = (Returned result, files', tr) ->
  run (main w (program :: repo :: digest :: region :: account :: rest)) files
  = (Returned tt, files', tr)
  /\ exit_status (outcome_of (run (main w (program :: repo :: digest
                                             :: region :: account :: rest))
                                files)) = 0.
Proof.
  intros H. unfold main.
  assert (L : (len (program :: repo :: digest :: region :: account :: rest)
               <? 4) = false).
  { apply Z.ltb_ge. unfold len. cbn [length]. lia. }
  rewrite L. unfold outcome_of, run in *.
  cbv -[process app]. cbv -[process] in H. rewrite H.
  rewrite app_nil_r. split; reflexivity.
Qed.

(** Two arguments: the usage line and status 1.  Four arguments: [process]
    runs, and the status is 0 although the pull failed. *)
Example main_two_arguments (w : World) :
  run (main w two_arguments) [] = (Exited 1, [], [Printed usage]).
Proof. reflexivity. Qed.

Example main_four_arguments_failed_pull :
  outcome_of (sample_run (scenario [AtPull] three_indices))
  = Returned ("Image pull error", Some (errors_New "connection reset"))
  /\ exit_status
       (outcome_of (run (main (scenario [AtPull] three_indices) four_arguments)
                      []))
     = 0.
Proof. split; reflexivity. Qed.

(** C4 — evaluation of [main] on three arguments (four elements of
    [os.Args]): the guard [len(os.Args) < 4] lets them through, nothing is
    printed, and reading [os.Args[4]] panics with an index out of range;
    the exit status is 2. *)
Theorem main_three_arguments_panic (w : World) (files : Files) :
  run (main w three_arguments) files
  = (Panicked "runtime error: index out of range [4] with length 4",
     files, [])
  /\ ~ In (Printed usage) (trace_of (run (main w three_arguments) files)).
Proof.
  split; [reflexivity | intros H; exact H].
Qed.

(** C9 — evaluation of [main] on an [os.Args] of four elements: it
    passes the argument-count guard, yet [process] is never called and
    the exit status is 2, not 0. *)
Theorem main_guard_passed_exit_status
  (w : World) (program repo digest region : string) (files : Files) :
  let Args := [program; repo; digest; region] in
  (len Args <? 4) = false
  /\ trace_of (run (main w Args) files) = []
  /\ exit_status (outcome_of (run (main w Args) files)) = 2.
Proof.
  repeat split.
Qed.

(** ** Sorting and the latest index *)

Section Sorting.

Variable A : Type.
Variable less : A -> A -> bool.
Hypothesis less_order : strict_weak_order less.

Lemma less_asymmetric (a b : A) : less a b = true -> less b a = false.
Proof.
  destruct less_order as (irreflexive & transitive & _). intros Hab.
  destruct (less b a) eqn:Hba; [|reflexivity].
  rewrite <- (irreflexive a). symmetry. now apply transitive with b.
Qed.

Lemma insert_sorted_permutation (x : A) (l : list A) :
  Permutation (x :: l) (insert_sorted less x l).
Proof.
  induction l as [|y l IH]; cbn [insert_sorted].
  - apply Permutation_refl.
  - destruct (less x y).
    + apply Permutation_refl.
    + apply perm_trans with (y :: x :: l); [apply perm_swap|].
      now apply perm_skip.
Qed.

Lemma insert_sorted_sorted (x : A) (l : list A) :
  StronglySorted (not_after less) l ->
  StronglySorted (not_after less) (insert_sorted less x l).
Proof.
  destruct less_order as (_ & _ & incomparable).
  induction 1 as [|y l Hsorted IH Hy]; cbn [insert_sorted].
  - repeat constructor.
  - destruct (less x y) eqn:Hxy.
    + constructor; [now constructor|].
      constructor; [now apply less_asymmetric|].
      apply less_asymmetric in Hxy.
      eapply Forall_impl; [|exact Hy]. intros z Hz.
      unfold not_after in *. now apply incomparable with y.
    + constructor; [exact IH|].
      apply (Permutation_Forall (insert_sorted_permutation x l)).
      now constructor.
Qed.

Lemma insertion_sort_from (l sorted : list A) :
  StronglySorted (not_after less) sorted ->
  Permutation (l ++ sorted)
    (fold_left (fun s x => insert_sorted less x s) l sorted)
  /\ StronglySorted (not_after less)
       (fold_left (fun s x => insert_sorted less x s) l sorted).
Proof.
  revert sorted. induction l as [|x l IH]; intros sorted Hsorted.
  - split; [apply Permutation_refl | exact Hsorted].
  - cbn [fold_left app].
    destruct (IH (insert_sorted less x sorted)) as [Hperm Hs].
    { now apply insert_sorted_sorted. }
    split; [|exact Hs].
    apply perm_trans with (l ++ insert_sorted less x sorted)%list;
      [|exact Hperm].
    apply perm_trans with (l ++ x :: sorted)%list.
    + apply Permutation_middle.
    + apply Permutation_app_head, insert_sorted_permutation.
Qed.

(** The last element of a sorted slice is not before any other. *)
Lemma sorted_last (l : list A) (m : A) :
  StronglySorted (not_after less) (l ++ [m]) ->
  Forall (fun y => less m y = false) l.
Proof.
  induction l as [|y l IH]; intros Hs; [constructor|].
  cbn [app] in Hs. apply StronglySorted_inv in Hs as [Hs Hy].
  constructor; [|now apply IH].
  apply Forall_app in Hy as [_ Hm]. now inversion Hm.
Qed.

End Sorting.

Lemma insertion_sort_contract : sort_Slice_contract insertion_sort.
Proof.
  intros A l less Hless. unfold insertion_sort.
  destruct (@insertion_sort_from A less Hless l []) as [Hperm Hs].
  { constructor. }
  rewrite app_nil_r in Hperm. now split.
Qed.

Lemma created_before_order : strict_weak_order created_before.
Proof.
  unfold created_before, time.Before. repeat split.
  - intros a. apply Z.ltb_irrefl.
  - intros a b c Hab Hbc. apply Z.ltb_lt in Hab, Hbc. apply Z.ltb_lt. lia.
  - intros a b c Hab Hbc. apply Z.ltb_ge in Hab, Hbc. apply Z.ltb_ge. lia.
Qed.

Lemma at_index_last (A : Type) (l : list A) (m : A) :
  at_index (l ++ [m]) (len (l ++ [m]) - 1) = Some m.
Proof.
  unfold at_index, len. rewrite length_app. cbn [length].
  replace (Z.of_nat (length l + 1) - 1) with (Z.of_nat (length l)) by lia.
  destruct (Z.of_nat (length l) <? 0) eqn:E; [apply Z.ltb_lt in E; lia|].
  rewrite Nat2Z.id, nth_error_app2, Nat.sub_diag; [reflexivity | lia].
Qed.

(** What [buildIndex] selects from a non-empty collection: the last
    element of the sorted slice exists, is one of the recorded indices,
    and no recorded index was created after it. *)
Lemma latest_selected
  (sort : forall A : Type, list A -> (A -> A -> bool) -> list A)
  (infos : list soci.IndexDescriptorInfo) :
  sort_Slice_contract sort ->
  infos <> [] ->
  exists m,
    at_index (sort _ infos created_before)
      (len (sort _ infos created_before) - 1) = Some m
    /\ In m infos
    /\ forall y, In y infos -> soci.CreatedAt y <= soci.CreatedAt m.
Proof.
  intros Hsort Hne.
  destruct (Hsort _ infos created_before created_before_order) as [Hperm Hs].
  destruct (exists_last (l := sort _ infos created_before)) as (l & m & E).
  { intros E. rewrite E in Hperm. apply Permutation_sym in Hperm.
    now apply Permutation_nil in Hperm. }
  rewrite E in *. exists m. split; [apply at_index_last|]. split.
  - apply (Permutation_in _ (Permutation_sym Hperm)), in_or_app.
    right. now left.
  - intros y Hy. apply (Permutation_in _ Hperm), in_app_or in Hy.
    destruct Hy as [Hy|[<-|[]]]; [|lia].
    apply sorted_last in Hs.
    rewrite Forall_forall in Hs. specialize (Hs y Hy).
    unfold created_before, time.Before in Hs. apply Z.ltb_ge in Hs. lia.
Qed.

Lemma distinct_timestamps (infos : list soci.IndexDescriptorInfo)
  (x y : soci.IndexDescriptorInfo) :
  NoDup (map soci.CreatedAt infos) ->
  In x infos -> In y infos -> soci.CreatedAt x = soci.CreatedAt y -> x = y.
Proof.
  induction infos as [|z infos IH]; intros Hnd Hx Hy E; [destruct Hx|].
  cbn [map] in Hnd. apply NoDup_cons_iff in Hnd as [Hz Hnd].
  destruct Hx as [->|Hx], Hy as [->|Hy]; auto.
  - exfalso. apply Hz. rewrite E. now apply in_map.
  - exfalso. apply Hz. rewrite <- E. now apply in_map.
Qed.

Lemma buildIndex_after_listing
  (w : World) (ctx : context.Context) (dataDir : string)
  (sociStore : SociStore) (image : images.Image) (files : Files)
  (infos : list soci.IndexDescriptorInfo) :
  w_GetIndexDescriptorCollection w image [w_DefaultSpec w] = Ok infos ->
  In (Called (Call_GetIndexDescriptorCollection image [w_DefaultSpec w]) None)
     (trace_of (run (buildIndex w ctx dataDir sociStore image) files)) ->
  outcome_of (run (buildIndex w ctx dataDir sociStore image) files)
  = select_latest w infos.
Proof.
  intros Hinfos. unfold select_latest. execute; intros H; which_event;
    try congruence.
Qed.

(** C3 — Once [buildIndex] has read the recorded index descriptors:
    from an empty collection it returns the error
    "No SOCI indices found in OCI store"; from a single descriptor it
    returns that descriptor; from descriptors with pairwise distinct
    creation timestamps it returns the one whose timestamp is the
    maximum; and it never panics.  [sort.Slice] is any sort meeting its
    contract. *)
Theorem buildIndex_selects_latest
  (w : World) (ctx : context.Context) (dataDir : string)
  (sociStore : SociStore) (image : images.Image) (files : Files)
  (infos : list soci.IndexDescriptorInfo) :
  sort_Slice_contract (w_sort_Slice w) ->
  w_GetIndexDescriptorCollection w image [w_DefaultSpec w] = Ok infos ->
  In (Called (Call_GetIndexDescriptorCollection image [w_DefaultSpec w]) None)
     (trace_of (run (buildIndex w ctx dataDir sociStore image) files)) ->
  let o := outcome_of (run (buildIndex w ctx dataDir sociStore image) files) in
  (infos = [] ->
   o = Returned (Err (errors_New "No SOCI indices found in OCI store")))
  /\ (forall x, infos = [x] -> o = Returned (Ok (soci.Descriptor x)))
  /\ (NoDup (map soci.CreatedAt infos) ->
      forall x,
        In x infos ->
        (forall y, In y infos -> soci.CreatedAt y <= soci.CreatedAt x) ->
        o = Returned (Ok (soci.Descriptor x)))
  /\ (forall msg, o <> Panicked msg).
Proof.
  intros Hsort Hinfos Hlisted o. subst o.
  rewrite (@buildIndex_after_listing w ctx dataDir sociStore image files
             infos Hinfos Hlisted).
  unfold select_latest. destruct infos as [|i infos].
  - cbn. repeat split; try discriminate. intros _ x [].
  - replace (len (i :: infos) =? 0) with false
      by (symmetry; apply Z.eqb_neq; unfold len; cbn [length]; lia).
    destruct (@latest_selected (w_sort_Slice w) (i :: infos) Hsort)
      as (m & Hm & Hin & Hmax); [discriminate|].
    cbv zeta. rewrite Hm. repeat split; try discriminate.
    + intros x E. rewrite E in Hin. destruct Hin as [<-|[]]. reflexivity.
    + intros Hnd x Hx Hx_max.
      rewrite (@distinct_timestamps (i :: infos) x m Hnd Hx Hin);
        [reflexivity|].
      specialize (Hmax x Hx). specialize (Hx_max m Hin). lia.
Qed.

Lemma buildIndex_selects_latest_witness :
  outcome_of (run (buildIndex (scenario [] three_indices) context.TODO
                     "/tmp/TODO2908557746" sample_store sample_image) [])
  = Returned (Ok (index_descriptor "sha256:bbbb")).
Proof.
  refine (proj1 (proj2 (proj2
    (@buildIndex_selects_latest (scenario [] three_indices) context.TODO
       "/tmp/TODO2908557746" sample_store sample_image [] three_indices
       insertion_sort_contract eq_refl _))) _
    (index_info "sha256:bbbb" 1700000300) _ _).
  - vm_compute. tauto.
  - repeat constructor; cbn; intuition discriminate.
  - cbn. tauto.
  - cbn. intros y [<-|[<-|[<-|[]]]]; cbn; lia.
Defined.

(** ** The workspace and its removal *)

Lemma remove_within_gone (dir : string) (files : Files) (p : string) :
  In p (remove_within dir files) -> within dir p = false.
Proof.
  unfold remove_within. intros H. apply filter_In in H as [_ H].
  now apply negb_true_iff in H.
Qed.

Lemma exists_within_removed (dir : string) (files : Files) :
  exists_within dir (remove_within dir files) = false.
Proof.
  unfold exists_within. destruct (existsb _ _) eqn:E; [|reflexivity].
  apply existsb_exists in E as (p & Hp & Hw).
  apply remove_within_gone in Hp. congruence.
Qed.

Lemma remove_within_absent (dir : string) (files : Files) :
  exists_within dir files = false -> remove_within dir files = files.
Proof.
  unfold exists_within, remove_within.
  induction files as [|p files IH]; [reflexivity|].
  cbn [existsb filter]. intros H. apply orb_false_iff in H as [Hp H].
  rewrite Hp. cbn [negb]. now rewrite IH.
Qed.

(** C2, as the code has it — In every run of [process] in which the
    workspace was provisioned, whatever the exit path, [os.RemoveAll] is
    called exactly once, on the workspace directory, and it is the last
    call of the run; when that removal succeeds nothing at or below the
    workspace directory exists after [process] has ended; when it fails
    the failure is logged. *)
Theorem workspace_cleanup
  (w : World) (ctx : context.Context) (repo digest region account : string)
  (files : Files) (random : string) :
  let r := run (process w ctx repo digest region account) files in
  let dataDir := path.Join "/tmp" ("TODO" ++ random) in
  w_MkdirTemp w "/tmp" "TODO" = Ok random ->
  In (Called (Call_MkdirTemp "/tmp" "TODO") None) (trace_of r) ->
  exists err,
    removals (trace_of r) = [(dataDir, err)]
    /\ last_call (trace_of r) = Some (Call_RemoveAll dataDir, err)
    /\ (err = None -> forall p, In p (files_of r) -> within dataDir p = false)
    /\ (forall e,
           err = Some e ->
           In (Logged Error_
                 (context.WithValue ctx "RegistryURL"
                    (buildEcrRegistryUrl region account))
                 "Clean up error" (Some e)) (trace_of r)).
Proof.
  intros r dataDir Hdir. subst r dataDir. revert Hdir.
  execute; intros Hdir H; which_event;
    try congruence;
    injection Hdir as <-;
    eexists; (split; [reflexivity|]); (split; [reflexivity|]);
    (split; [intros E; try discriminate E; apply remove_within_gone
            | intros e' E; try discriminate E; injection E as <-;
              cbn; tauto]).
Qed.

Lemma workspace_cleanup_witness :
  exists err,
    removals (trace_of (sample_run (scenario [AtPull] three_indices)))
    = [("/tmp/TODO2908557746", err)]
    /\ files_of (sample_run (scenario [AtPull] three_indices)) = [].
Proof.
  destruct (@workspace_cleanup (scenario [AtPull] three_indices)
              context.TODO "app" "sha256:1111" "us-west-2" "123456789012"
              [] "2908557746" eq_refl)
    as (err & Hremovals & _ & _ & _).
  - vm_compute. tauto.
  - exists err. split; [exact Hremovals | reflexivity].
Defined.

(** C2, as stated, fails when the removal fails: the workspace was
    provisioned, [process] has returned, and the directory is still
    there. *)
Lemma workspace_left_behind :
  ~ (In (Called (Call_MkdirTemp "/tmp" "TODO") None)
        (trace_of (sample_run (scenario [AtRemoveAll] three_indices))) ->
     exists_within "/tmp/TODO2908557746"
       (files_of (sample_run (scenario [AtRemoveAll] three_indices)))
     = false).
Proof.
  intros H. assert (E : exists_within "/tmp/TODO2908557746"
       (files_of (sample_run (scenario [AtRemoveAll] three_indices)))
     = false) by (apply H; vm_compute; tauto).
  vm_compute in E. discriminate E.
Qed.

(** ** The storage handles *)




(** ** Faults *)

(** The next answer of the world is known. *)
Ltac known_answer :=
  match goal with
  | H : ?x = _ |- context [match ?x with _ => _ end] => rewrite H
  | H : ?x = _ |- context [if ?x then _ else _] => rewrite H
  end.

Ltac follow := unfold_program; repeat (compute_run; known_answer).

(** The outcome does not depend on how the deferred removal ends. *)
Ltac whatever_removal :=
  try reflexivity;
  match goal with
  | |- context [removal_error ?w ?dir ?files] =>
      destruct (removal_error w dir files); reflexivity
  end.

Ltac open_stages :=
  unfold Indexed, BuilderReady, Pulled, StorageReady, WorkspaceReady,
    Validated, builder_of, image_of, db_of, content_of, store_of, workspace
    in *;
  repeat match goal with H : _ /\ _ |- _ => destruct H end.

(** C7 — For every fault other than a failed manifest validation — the
    registry initialisation, the creation of the workspace, the
    initialisation of a storage handle, the pull, the index builder and
    its build, the listing of the indices or an empty listing, the push
    — [process] returns the message of the fault category together with
    a non-nil error, and that error is the very value the failing
    collaborator answered, neither wrapped nor replaced (for the empty
    listing, the error [buildIndex] makes).  The outcome differs from a
    success and from an early exit, which both carry a nil error and
    differ in their message. *)
Theorem process_reports_faults
  (w : World) (ctx : context.Context) (repo digest region account : string)
  (files : Files) (msg : string) (e : error) :
  pipeline_fault w repo digest region account msg e ->
  outcome_of (run (process w ctx repo digest region account) files)
  = Returned (msg, Some e)
  /\ (msg, Some e) <> succeeded
  /\ (msg, Some e) <> skipped
  /\ succeeded <> skipped.
Proof.
  intros H.
  assert (G : outcome_of
                (run (process w ctx repo digest region account) files)
              = Returned (msg, Some e)).
  { destruct H; open_stages.
    1-10: (follow;
           try (change (len (@nil soci.IndexDescriptorInfo) =? 0) with true;
                compute_run);
           whatever_removal).
    unfold select_latest in *.
    destruct (len infos =? 0) eqn:Hlen; [discriminate|].
    cbv zeta in *.
    destruct (at_index _ _) eqn:Hlast; [|discriminate].
    match goal with
    | S : Returned _ = Returned _ |- _ => injection S as <-
    end.
    follow. whatever_removal. }
  split; [exact G|]. repeat split; discriminate.
Qed.

Lemma process_reports_faults_witness :
  outcome_of (sample_run push_denied)
  = Returned ("SOCI index push error", Some access_denied).
Proof.
  apply (@process_reports_faults push_denied context.TODO "app"
           "sha256:1111" "us-west-2" "123456789012" []).
  apply push_fault
    with (registry := {| registry_url :=
                           "123456789012.dkr.ecr.us-west-2.amazonaws.com" |})
         (random := "2908557746") (desc := pulled_image)
         (infos := three_indices)
         (indexDescriptor := index_descriptor "sha256:bbbb").
  - repeat split.
  - reflexivity.
  - reflexivity.
  - reflexivity.
Defined.

(** The outcome of each fault, and of the runs without one, computed. *)
Example outcome_of_each_fault :
  map (fun failing =>
         outcome_of (sample_run (scenario failing three_indices)))
    [[AtInit]; [AtMkdirTemp]; [AtOciNew]; [AtPull]; [AtNewDB];
     [AtLocalStore]; [AtNewIndexBuilder]; [AtBuild]; [AtList]; [AtPush]]
  = [Returned ("Remote registry initialization error",
               Some (errors_New "no credentials"));
     Returned ("Directory create error",
               Some (errors_New "no space left on device"));
     Returned ("OCI storage initialization error",
               Some (errors_New "invalid OCI layout"));
     Returned ("Image pull error", Some (errors_New "connection reset"));
     Returned ("SOCI index build error",
               Some (errors_New "cannot open database"));
     Returned ("SOCI index build error",
               Some (errors_New "cannot create content store"));
     Returned ("SOCI index build error",
               Some (errors_New "bad builder option"));
     Returned ("SOCI index build error", Some (errors_New "layer not found"));
     Returned ("SOCI index build error",
               Some (errors_New "database is closed"));
     Returned ("SOCI index push error", Some (errors_New "push denied"))]
  /\ outcome_of (sample_run (scenario [] []))
     = Returned ("SOCI index build error",
                 Some (errors_New "No SOCI indices found in OCI store"))
  /\ outcome_of (sample_run (scenario [] three_indices)) = Returned succeeded
  /\ outcome_of (sample_run (scenario [AtValidate] three_indices))
     = Returned skipped.
Proof. repeat split. Qed.

(** X12 — Every run of [process] ends in one of three ways: success,
    early exit, or the report of a fault.  (With a [sort.Slice] meeting
    its contract, [process] never panics.) *)
Lemma process_outcomes
  (w : World) (ctx : context.Context) (repo digest region account : string)
  (files : Files) :
  sort_Slice_contract (w_sort_Slice w) ->
  outcome_of (run (process w ctx repo digest region account) files)
  = Returned succeeded
  \/ outcome_of (run (process w ctx repo digest region account) files)
     = Returned skipped
  \/ exists msg e,
      fault w
        (trace_of (run (process w ctx repo digest region account) files))
        msg e
      /\ outcome_of (run (process w ctx repo digest region account) files)
         = Returned (msg, Some e).
Proof.
  intros Hsort.
  execute;
    try (left; reflexivity);
    try (right; left; reflexivity);
    try (right; right; eexists; eexists; refine (conj _ eq_refl);
         eapply collaborator_fault;
         [cbn; repeat first [left; reflexivity | right] | reflexivity]).
  all: try (right; right; eexists; eexists; refine (conj _ eq_refl);
            eapply no_index_fault;
            [cbn; repeat first [left; reflexivity | right]|];
            match goal with
            | Hl : w_GetIndexDescriptorCollection _ _ _ = Ok ?v,
              Hb : (len ?v =? 0) = true |- _ =>
                destruct v; [exact Hl | discriminate Hb]
            end).
  all: exfalso;
    match goal with
    | Hb : (len ?v =? 0) = false,
      Hi : at_index (w_sort_Slice ?w0 ?v created_before) _ = None |- _ =>
        destruct (@latest_selected (w_sort_Slice w0) v Hsort)
          as (m & Hm & _);
        [intros ->; discriminate Hb | congruence]
    end.
Qed.

(** ** Teardown *)

Lemma cleanUp_run
  (w : World) (ctx : context.Context) (dataDir : string) (files : Files) :
  run (cleanUp w ctx dataDir) files
  = match removal_error w dataDir files with
    | None =>
        (Returned tt, remove_within dataDir files,
         [Logged Info ctx ("Removing all files in " ++ dataDir) None;
          Called (Call_RemoveAll dataDir) None])
    | Some e =>
        (Returned tt, files,
         [Logged Info ctx ("Removing all files in " ++ dataDir) None;
          Called (Call_RemoveAll dataDir) (Some e);
          Logged Error_ ctx "Clean up error" (Some e)])
    end.
Proof.
  unfold_program. compute_run.
  now destruct (removal_error w dataDir files).
Qed.

(** C8 — [cleanUp] always returns, and returns no error to its caller.
    On a directory that does not exist it succeeds, changes nothing and
    logs no error; run a second time it leaves the files as the first run
    left them.  A removal error is only logged: the outcome of [process]
    is the same whatever [os.RemoveAll] does. *)
Theorem cleanUp_never_escalates
  (w : World) (ctx : context.Context) (dataDir : string) (files : Files) :
  outcome_of (run (cleanUp w ctx dataDir) files) = Returned tt
  /\ (exists_within dataDir files = false ->
      run (cleanUp w ctx dataDir) files
      = (Returned tt, files,
         [Logged Info ctx ("Removing all files in " ++ dataDir) None;
          Called (Call_RemoveAll dataDir) None]))
  /\ files_of (run (cleanUp w ctx dataDir)
                 (files_of (run (cleanUp w ctx dataDir) files)))
     = files_of (run (cleanUp w ctx dataDir) files)
  /\ (forall e,
         In (Called (Call_RemoveAll dataDir) (Some e))
            (trace_of (run (cleanUp w ctx dataDir) files)) ->
         In (Logged Error_ ctx "Clean up error" (Some e))
            (trace_of (run (cleanUp w ctx dataDir) files)))
  /\ (forall removal repo digest region account,
         outcome_of
           (run (process (with_RemoveAll w removal) ctx repo digest region
                   account) files)
         = outcome_of (run (process w ctx repo digest region account) files)).
Proof.
  split; [|split; [|split; [|split]]].
  - rewrite cleanUp_run. now destruct (removal_error w dataDir files).
  - intros H. rewrite cleanUp_run. unfold removal_error. rewrite H.
    now rewrite remove_within_absent.
  - rewrite (cleanUp_run w ctx dataDir files).
    destruct (removal_error w dataDir files) eqn:Hfirst;
      unfold files_of at 2 3; cbn [fst snd];
      rewrite cleanUp_run.
    + now rewrite Hfirst.
    + unfold removal_error. rewrite exists_within_removed.
      apply remove_within_absent, exists_within_removed.
  - intros e. rewrite cleanUp_run.
    destruct (removal_error w dataDir files); unfold trace_of; cbn [snd];
      intros H; which_event.
    cbn. auto.
  - intros removal repo digest region account.
    unfold with_RemoveAll. execute; reflexivity.
Qed.

Lemma cleanUp_never_escalates_witness :
  run (cleanUp (scenario [AtRemoveAll] three_indices) context.TODO
         "/tmp/TODO2908557746") []
  = (Returned tt, [],
     [Logged Info context.TODO "Removing all files in /tmp/TODO2908557746"
        None;
      Called (Call_RemoveAll "/tmp/TODO2908557746") None]).
Proof.
  apply (proj1 (proj2 (@cleanUp_never_escalates
                         (scenario [AtRemoveAll] three_indices) context.TODO
                         "/tmp/TODO2908557746" []))).
  reflexivity.
Defined.

(** * Further properties of [main.go] *)

(** ** Paths of the workspace *)

Lemma append_assoc (a b c : string) : (a ++ b) ++ c = a ++ b ++ c.
Proof.
  induction a as [|x a IH]; cbn [append]; [reflexivity | now rewrite IH].
Qed.

Lemma workspace_name (random : string) :
  workspace random = "/tmp/TODO" ++ random.
Proof. reflexivity. Qed.

Lemma within_self (dir : string) : within dir dir = true.
Proof. unfold within. now rewrite String.eqb_refl. Qed.

Lemma within_Join (dir name : string) :
  dir <> "" -> name <> "" -> within dir (path.Join dir name) = true.
Proof.
  intros Hdir Hname. unfold within, path.Join.
  destruct dir as [|a dir]; [contradiction|].
  destruct name as [|b name]; [contradiction|].
  apply orb_true_iff. right. apply HasPrefix_iff.
  exists (String b name). now rewrite append_assoc.
Qed.

Lemma remove_within_add_path (dir p : string) (files : Files) :
  within dir p = true ->
  remove_within dir (add_path p files) = remove_within dir files.
Proof.
  intros H. unfold add_path. destruct (existsb _ _); [reflexivity|].
  unfold remove_within. cbn [filter]. now rewrite H.
Qed.

Lemma remove_within_cons (dir p : string) (files : Files) :
  within dir p = true ->
  remove_within dir (p :: files) = remove_within dir files.
Proof. intros H. unfold remove_within. cbn [filter]. now rewrite H. Qed.

Lemma add_path_spec (p q : string) (files : Files) :
  In q (add_path p files) <-> q = p \/ In q files.
Proof.
  unfold add_path. destruct (existsb _ _) eqn:E.
  - split; [tauto|]. intros [->|H]; [|exact H].
    apply existsb_exists in E as (x & Hx & Heq).
    apply String.eqb_eq in Heq. now subst.
  - cbn [In]. split; intros [H|H]; auto.
Qed.

(** ** The workspace manager and the storage provisioner *)

(** X1 — [createTempDir] reads the free space of [/tmp] and then always
    attempts [os.MkdirTemp("/tmp", "TODO")], whatever the free space is.
    On success it returns a name that starts with [/tmp/TODO] and a nil
    error, and the files afterwards are that directory and the files
    before; on failure it returns the empty name with the error of
    [os.MkdirTemp] and the files are unchanged. *)
Theorem createTempDir_creates_one_directory
  (w : World) (ctx : context.Context) (files : Files) :
  let r := run (createTempDir w ctx) files in
  exists name err,
    outcome_of r = Returned (name, err)
    /\ call_names (trace_of r) = ["fs.CalculateFreeSpace"; "os.MkdirTemp"]
    /\ In (Called (Call_MkdirTemp "/tmp" "TODO") err) (trace_of r)
    /\ (err = None ->
        strings.HasPrefix name "/tmp/TODO" = true
        /\ forall p, In p (files_of r) <-> p = name \/ In p files)
    /\ (forall e, err = Some e -> name = "" /\ files_of r = files).
Proof.
  intros r. subst r. execute; eexists; eexists;
    (split; [reflexivity|]); (split; [reflexivity|]);
    (split; [cbn; auto 6|]); split;
    try discriminate; try (intros e' E; split; reflexivity).
  intros _. split; [apply HasPrefix_iff; now exists v|].
  intros p. cbn. intuition auto.
Qed.

Lemma createTempDir_creates_one_directory_witness :
  exists name,
    outcome_of (run (createTempDir (scenario [] three_indices) context.TODO)
                  [])
    = Returned (name, None)
    /\ strings.HasPrefix name "/tmp/TODO" = true.
Proof.
  destruct (@createTempDir_creates_one_directory
              (scenario [] three_indices) context.TODO [])
    as (name & err & Hreturned & _ & _ & Hcreated & _).
  assert (E : err = None).
  { vm_compute in Hreturned. now injection Hreturned as _ <-. }
  subst err. exists name. split; [exact Hreturned|].
  now destruct (Hcreated eq_refl).
Defined.

(** X2 — The storage layout of a workspace.  For the workspace
    directory [os.MkdirTemp] makes (["/tmp/TODO"] followed by decimal
    digits), [initContainerdStore], [initOciStore] and [initSociStore] all
    open the one root [<workspace>/store], [initSociArtifactsDb] opens
    [<workspace>/artifacts.db], and both lie within the workspace.  Each
    initialiser makes that one call and nothing else, and returns the
    handle opened on that path or, unchanged, the error its library
    answered.  (The name of such a directory is in canonical form, so
    [path.Join] has nothing to clean.) *)
Theorem store_initialisers_layout
  (w : World) (ctx : context.Context) (random : string) (files : Files) :
  decimal_digits random = true ->
  let dataDir := "/tmp/TODO" ++ random in
  let store := dataDir ++ "/store" in
  let db := dataDir ++ "/artifacts.db" in
  within dataDir store = true
  /\ within dataDir db = true
  /\ (calls (trace_of (run (initContainerdStore w dataDir) files))
      = [Call_local_NewStore store]
      /\ outcome_of (run (initContainerdStore w dataDir) files)
         = Returned match w_local_NewStore w store with
                    | None => Ok {| content_store_root := store |}
                    | Some e => Err e
                    end)
  /\ (calls (trace_of (run (initOciStore w ctx dataDir) files))
      = [Call_oci_New store]
      /\ outcome_of (run (initOciStore w ctx dataDir) files)
         = Returned match w_oci_New w store with
                    | None => Ok {| soci_store_root := store |}
                    | Some e => Err e
                    end)
  /\ (calls (trace_of (run (initSociStore w ctx dataDir) files))
      = [Call_oci_New store]
      /\ outcome_of (run (initSociStore w ctx dataDir) files)
         = Returned match w_oci_New w store with
                    | None => Ok {| soci_store_root := store |}
                    | Some e => Err e
                    end)
  /\ (calls (trace_of (run (initSociArtifactsDb w dataDir) files))
      = [Call_NewDB db]
      /\ outcome_of (run (initSociArtifactsDb w dataDir) files)
         = Returned match w_NewDB w db with
                    | None => Ok {| artifacts_db_path := db |}
                    | Some e => Err e
                    end).
Proof.
  intros _ dataDir store db.
  assert (Hstore : path.Join dataDir artifactsStoreName = store)
    by reflexivity.
  assert (Hdb : path.Join dataDir artifactsDbName = db) by reflexivity.
  split; [|split].
  - rewrite <- Hstore. apply within_Join; discriminate.
  - rewrite <- Hdb. apply within_Join; discriminate.
  - unfold initContainerdStore, initOciStore, initSociStore,
      initSociArtifactsDb.
    rewrite Hstore, Hdb. clearbody store db. clear Hstore Hdb.
    repeat split; execute; reflexivity.
Qed.

Lemma store_initialisers_layout_witness :
  within "/tmp/TODO2908557746" "/tmp/TODO2908557746/store" = true
  /\ calls (trace_of (run (initSociArtifactsDb
                                 (scenario [AtNewDB] three_indices)
                                 "/tmp/TODO2908557746") []))
     = [Call_NewDB "/tmp/TODO2908557746/artifacts.db"].
Proof.
  destruct (@store_initialisers_layout (scenario [AtNewDB] three_indices)
              context.TODO "2908557746" [] eq_refl)
    as (Hstore & _ & _ & _ & _ & Hdb & _).
  split; [exact Hstore | exact Hdb].
Defined.

(** X3 — [cleanUp] removes nothing outside the directory it is given and
    creates nothing: a path that is not within [dataDir] exists after
    [cleanUp] exactly when it existed before, and no path exists after
    that did not exist before. *)
Theorem cleanUp_touches_only_workspace
  (w : World) (ctx : context.Context) (dataDir : string) (files : Files)
  (p : string) :
  (In p (files_of (run (cleanUp w ctx dataDir) files)) -> In p files)
  /\ (within dataDir p = false ->
      In p files -> In p (files_of (run (cleanUp w ctx dataDir) files))).
Proof.
  rewrite cleanUp_run.
  destruct (removal_error w dataDir files); unfold files_of; cbn [fst snd];
    unfold remove_within; split; try tauto.
  - intros H. now apply filter_In in H.
  - intros Hout Hin. apply filter_In. split; [exact Hin|]. now rewrite Hout.
Qed.

Lemma cleanUp_touches_only_workspace_witness :
  In "/tmp/other"
    (files_of (run (cleanUp (scenario [] three_indices) context.TODO
                      "/tmp/TODO2908557746")
                 ["/tmp/TODO2908557746/store"; "/tmp/other"])).
Proof.
  apply (proj2 (@cleanUp_touches_only_workspace (scenario [] three_indices)
                  context.TODO "/tmp/TODO2908557746"
                  ["/tmp/TODO2908557746/store"; "/tmp/other"] "/tmp/other")).
  - reflexivity.
  - cbn. tauto.
Defined.

(** ** The sequence of the pipeline *)

Lemma NoDup_firstn (A : Type) (k : nat) (l : list A) :
  NoDup l -> NoDup (firstn k l).
Proof.
  intros H. rewrite <- (firstn_skipn k l) in H.
  now apply NoDup_app_remove_r in H.
Qed.

Lemma In_firstn (A : Type) (k : nat) (l : list A) (a : A) :
  In a (firstn k l) -> In a l.
Proof.
  intros H. rewrite <- (firstn_skipn k l). apply in_or_app. now left.
Qed.

Lemma pipeline_NoDup : NoDup pipeline.
Proof.
  unfold pipeline. repeat constructor; cbn; intuition discriminate.
Qed.

(** X4 — [process] is one straight line without retries: the calls of a
    run are an initial part of the pipeline, in its order, followed by the
    one [os.RemoveAll] exactly when the workspace was created; no
    collaborator is called twice. *)
Theorem process_call_sequence
  (w : World) (ctx : context.Context) (repo digest region account : string)
  (files : Files) :
  let tr := trace_of (run (process w ctx repo digest region account) files) in
  (exists k,
      call_names tr
      = (firstn k pipeline
           ++ if provisioned tr then ["os.RemoveAll"] else [])%list)
  /\ NoDup (call_names tr).
Proof.
  intros tr.
  assert (H : exists k,
             call_names tr
             = (firstn k pipeline
                  ++ if provisioned tr then ["os.RemoveAll"] else [])%list).
  { subst tr. unfold call_names.
    execute;
      first [exists 1%nat; reflexivity | exists 2%nat; reflexivity
            | exists 4%nat; reflexivity | exists 5%nat; reflexivity
            | exists 6%nat; reflexivity | exists 7%nat; reflexivity
            | exists 8%nat; reflexivity | exists 9%nat; reflexivity
            | exists 10%nat; reflexivity | exists 11%nat; reflexivity
            | exists 12%nat; reflexivity]. }
  split; [exact H|]. destruct H as [k ->].
  apply NoDup_app.
  - apply NoDup_firstn, pipeline_NoDup.
  - destruct (provisioned tr); repeat constructor. intros [].
  - intros a Ha Hlast. apply In_firstn in Ha.
    destruct (provisioned tr); [|destruct Hlast].
    destruct Hlast as [<-|[]]. cbn in Ha. intuition discriminate.
Qed.

(** ** The files [process] leaves *)

Lemma workspace_nonempty (random : string) : workspace random <> "".
Proof. rewrite workspace_name. discriminate. Qed.

Lemma within_workspace (random name : string) :
  name <> "" ->
  within (workspace random) (path.Join (workspace random) name) = true.
Proof. intros H. apply within_Join; [apply workspace_nonempty | exact H]. Qed.

(** X5 — A run of [process] that ends before the workspace is created (a
    failed registry initialisation, a failed validation, a failed
    [os.MkdirTemp]) leaves the files as they were and removes nothing. *)
Theorem process_without_workspace
  (w : World) (ctx : context.Context) (repo digest region account : string)
  (files : Files) :
  provisioned
    (trace_of (run (process w ctx repo digest region account) files))
  = false ->
  files_of (run (process w ctx repo digest region account) files) = files
  /\ removals
       (trace_of (run (process w ctx repo digest region account) files))
     = [].
Proof.
  execute; intros H; try discriminate H; split; reflexivity.
Qed.

Lemma process_without_workspace_witness :
  files_of (run (process (scenario [AtMkdirTemp] three_indices) context.TODO
                   "app" "sha256:1111" "us-west-2" "123456789012")
              ["/tmp/other"])
  = ["/tmp/other"].
Proof.
  apply (@process_without_workspace (scenario [AtMkdirTemp] three_indices)
           context.TODO "app" "sha256:1111" "us-west-2" "123456789012"
           ["/tmp/other"]).
  reflexivity.
Defined.

(** X6 — When the removal of the workspace succeeds, a run of [process]
    leaves exactly the files there were before, less those within the
    workspace directory: every store and database the pipeline created is
    gone, wherever the run ended.  If nothing existed at the workspace
    name before, the files are as they were. *)
Theorem process_restores_files
  (w : World) (ctx : context.Context) (repo digest region account : string)
  (files : Files) (random : string) :
  w_MkdirTemp w "/tmp" "TODO" = Ok random ->
  removals (trace_of (run (process w ctx repo digest region account) files))
  = [(workspace random, None)] ->
  files_of (run (process w ctx repo digest region account) files)
  = remove_within (workspace random) files
  /\ (exists_within (workspace random) files = false ->
      files_of (run (process w ctx repo digest region account) files)
      = files).
Proof.
  intros Hdir Hremoved.
  assert (G : files_of (run (process w ctx repo digest region account) files)
              = remove_within (workspace random) files).
  { revert Hdir Hremoved.
    execute; intros Hdir Hremoved; try discriminate Hremoved;
      injection Hdir as ->; fold (workspace random);
      rewrite ?remove_within_add_path
        by (apply within_workspace; discriminate);
      apply remove_within_cons, within_self. }
  split; [exact G|]. intros Hfresh. rewrite G.
  now apply remove_within_absent.
Qed.

Lemma process_restores_files_witness :
  files_of (run (process (scenario [AtBuild] three_indices) context.TODO
                   "app" "sha256:1111" "us-west-2" "123456789012")
              ["/tmp/other"])
  = ["/tmp/other"].
Proof.
  apply (proj2 (@process_restores_files (scenario [AtBuild] three_indices)
                  context.TODO "app" "sha256:1111" "us-west-2"
                  "123456789012" ["/tmp/other"] "2908557746" eq_refl
                  eq_refl)).
  reflexivity.
Defined.

(** ** What [process] reports and what it publishes *)

(** Finding an event in a computed trace. *)
Ltac in_trace := cbn; repeat first [left; reflexivity | right].

(** X7 — [process] reports success exactly when the push was called and
    returned no error: it never claims success without having pushed, and
    after a successful push nothing can turn the run into a failure. *)
Theorem process_success_iff_pushed
  (w : World) (ctx : context.Context) (repo digest region account : string)
  (files : Files) :
  outcome_of (run (process w ctx repo digest region account) files)
  = Returned succeeded
  <-> exists store desc,
      In (Called (Call_Push store desc repo) None)
         (trace_of (run (process w ctx repo digest region account) files)).
Proof.
  unfold succeeded.
  execute; (split; [intros H | intros (store & desc & H)]);
    try discriminate H; try reflexivity;
    try (eexists; eexists; in_trace);
    which_event.
Qed.

(** X8 — What [process] pushes is the index it selected: the push goes to
    the repository of the request, from the store the image was pulled
    into, and its descriptor is that of a recorded index than which none
    was created later.  ([sort.Slice] is any sort meeting its contract.) *)
Theorem process_pushes_latest
  (w : World) (ctx : context.Context) (repo digest region account : string)
  (files : Files) (store : SociStore) (desc : ocispec.Descriptor)
  (target : string) (err : option error) :
  sort_Slice_contract (w_sort_Slice w) ->
  In (Called (Call_Push store desc target) err)
     (trace_of (run (process w ctx repo digest region account) files)) ->
  target = repo
  /\ In (Called (Call_Pull repo store digest) None)
        (trace_of (run (process w ctx repo digest region account) files))
  /\ exists image infos info,
      In (Called (Call_GetIndexDescriptorCollection image [w_DefaultSpec w])
            None)
         (trace_of (run (process w ctx repo digest region account) files))
      /\ w_GetIndexDescriptorCollection w image [w_DefaultSpec w] = Ok infos
      /\ In info infos
      /\ desc = soci.Descriptor info
      /\ forall y, In y infos -> soci.CreatedAt y <= soci.CreatedAt info.
Proof.
  intros Hsort.
  execute; intros H; which_event;
    (split; [reflexivity|]); (split; [in_trace|]);
    match goal with
    | Hl : w_GetIndexDescriptorCollection _ _ _ = Ok ?v,
      Hb : (len ?v =? 0) = false,
      Hi : at_index (w_sort_Slice ?w0 ?v created_before) _ = Some ?i |- _ =>
        destruct (@latest_selected (w_sort_Slice w0) v Hsort)
          as (m & Hm & Hin & Hmax);
        [intros ->; discriminate Hb|];
        rewrite Hm in Hi; injection Hi as <-;
        eexists; exists v; exists m;
        (split; [in_trace|]);
        (split; [exact Hl|]); auto
    end.
Qed.

Lemma process_pushes_latest_witness :
  index_descriptor "sha256:bbbb"
  = soci.Descriptor (index_info "sha256:bbbb" 1700000300)
  /\ In (Called (Call_Pull "app" sample_store "sha256:1111") None)
        (trace_of (sample_run (scenario [] three_indices))).
Proof.
  destruct (@process_pushes_latest (scenario [] three_indices) context.TODO
              "app" "sha256:1111" "us-west-2" "123456789012" []
              sample_store (index_descriptor "sha256:bbbb") "app" None
              insertion_sort_contract)
    as (_ & Hpulled & _).
  - vm_compute. tauto.
  - split; [reflexivity | exact Hpulled].
Defined.

(** X9 — The image [process] hands to the index builder is the one it
    pulled: its name is [repo@digest] and its target is the descriptor
    the pull returned. *)
Theorem process_builds_pulled_image
  (w : World) (ctx : context.Context) (repo digest region account : string)
  (files : Files) (image : images.Image) (err : option error) :
  In (Called (Call_Build image) err)
     (trace_of (run (process w ctx repo digest region account) files)) ->
  images.Name image = repo ++ "@" ++ digest
  /\ exists registry store,
      In (Called (Call_Pull repo store digest) None)
         (trace_of (run (process w ctx repo digest region account) files))
      /\ w_Pull w registry repo store digest = Ok (images.Target image).
Proof.
  execute; intros H; which_event;
    (split; [reflexivity|]); eexists; eexists;
    (split; [in_trace | eassumption]).
Qed.

Lemma process_builds_pulled_image_witness :
  images.Name sample_image = "app" ++ "@" ++ "sha256:1111".
Proof.
  apply (@process_builds_pulled_image (scenario [AtBuild] three_indices)
           context.TODO "app" "sha256:1111" "us-west-2" "123456789012" []
           sample_image (Some (errors_New "layer not found"))).
  vm_compute. tauto.
Defined.

(** X10 — Every error [process] returns has been logged: the trace holds
    an error-level line with the returned message and the returned error,
    logged under a context that carries the registry URL. *)
Theorem process_logs_returned_error
  (w : World) (ctx : context.Context) (repo digest region account : string)
  (files : Files) (msg : string) (e : error) :
  outcome_of (run (process w ctx repo digest region account) files)
  = Returned (msg, Some e) ->
  exists logged_under,
    In (Logged Error_ logged_under msg (Some e))
       (trace_of (run (process w ctx repo digest region account) files))
    /\ In ("RegistryURL", buildEcrRegistryUrl region account) logged_under.
Proof.
  execute; intros H; try discriminate H; injection H as <- <-;
    eexists; (split; [in_trace | cbn; auto]).
Qed.

Lemma process_logs_returned_error_witness :
  exists logged_under,
    In (Logged Error_ logged_under "SOCI index push error"
          (Some (errors_New "push denied")))
       (trace_of (sample_run (scenario [AtPush] three_indices)))
    /\ In ("RegistryURL", "123456789012.dkr.ecr.us-west-2.amazonaws.com")
          logged_under.
Proof.
  apply (@process_logs_returned_error (scenario [AtPush] three_indices)
           context.TODO "app" "sha256:1111" "us-west-2" "123456789012" []).
  reflexivity.
Defined.

(** ** Ties, and the remaining witnesses *)

(** X11 — Whatever the timestamps, ties included, [buildIndex] returns
    from a non-empty collection the descriptor of a recorded index than
    which none was created later; it never returns an index that is not
    in the collection.  ([sort.Slice] is any sort meeting its contract.) *)
Theorem buildIndex_selects_a_latest
  (w : World) (ctx : context.Context) (dataDir : string)
  (sociStore : SociStore) (image : images.Image) (files : Files)
  (infos : list soci.IndexDescriptorInfo) :
  sort_Slice_contract (w_sort_Slice w) ->
  w_GetIndexDescriptorCollection w image [w_DefaultSpec w] = Ok infos ->
  infos <> [] ->
  In (Called (Call_GetIndexDescriptorCollection image [w_DefaultSpec w]) None)
     (trace_of (run (buildIndex w ctx dataDir sociStore image) files)) ->
  exists info,
    In info infos
    /\ (forall y, In y infos -> soci.CreatedAt y <= soci.CreatedAt info)
    /\ outcome_of (run (buildIndex w ctx dataDir sociStore image) files)
       = Returned (Ok (soci.Descriptor info)).
Proof.
  intros Hsort Hinfos Hne Hlisted.
  rewrite (@buildIndex_after_listing w ctx dataDir sociStore image files
             infos Hinfos Hlisted).
  destruct (@latest_selected (w_sort_Slice w) infos Hsort Hne)
    as (m & Hm & Hin & Hmax).
  exists m. split; [exact Hin|]. split; [exact Hmax|].
  unfold select_latest.
  replace (len infos =? 0) with false.
  - cbv zeta. now rewrite Hm.
  - symmetry. apply Z.eqb_neq. unfold len.
    destruct infos; [contradiction | cbn [length]; lia].
Qed.

Lemma buildIndex_selects_a_latest_witness :
  exists info,
    In info tied_indices
    /\ (forall y, In y tied_indices ->
                  soci.CreatedAt y <= soci.CreatedAt info)
    /\ outcome_of (run (buildIndex (scenario [] tied_indices) context.TODO
                          "/tmp/TODO2908557746" sample_store sample_image)
                     [])
       = Returned (Ok (soci.Descriptor info)).
Proof.
  apply (@buildIndex_selects_a_latest (scenario [] tied_indices)
           context.TODO "/tmp/TODO2908557746" sample_store sample_image []
           tied_indices insertion_sort_contract eq_refl).
  - discriminate.
  - vm_compute. tauto.
Defined.

Lemma process_outcomes_witness :
  outcome_of (sample_run (scenario [AtList] three_indices))
  = Returned succeeded
  \/ outcome_of (sample_run (scenario [AtList] three_indices))
     = Returned skipped
  \/ exists msg e,
      fault (scenario [AtList] three_indices)
        (trace_of (sample_run (scenario [AtList] three_indices))) msg e
      /\ outcome_of (sample_run (scenario [AtList] three_indices))
         = Returned (msg, Some e).
Proof.
  apply (@process_outcomes (scenario [AtList] three_indices) context.TODO
           "app" "sha256:1111" "us-west-2" "123456789012" []).
  apply insertion_sort_contract.
Defined.

Lemma main_usage_error_witness :
  run (main (scenario [] three_indices) ["soci-wrapper"]) ["/tmp/other"]
  = (Exited 1, ["/tmp/other"], [Printed usage]).
Proof.
  apply (@main_usage_error (scenario [] three_indices) ["soci-wrapper"]
           ["/tmp/other"]).
  reflexivity.
Defined.

Lemma main_discards_result_witness :
  exit_status
    (outcome_of
       (run (main (scenario [AtPush] three_indices)
               ("soci-wrapper" :: "app" :: "sha256:1111" :: "us-west-2"
                  :: "123456789012" :: ["ignored"])) []))
  = 0.
Proof.
  refine (proj2 (@main_discards_result (scenario [AtPush] three_indices)
                   "soci-wrapper" "app" "sha256:1111" "us-west-2"
                   "123456789012" ["ignored"] []
                   (files_of (sample_run (scenario [AtPush] three_indices)))
                   (trace_of (sample_run (scenario [AtPush] three_indices)))
                   ("SOCI index push error",
                    Some (errors_New "push denied")) _)).
  reflexivity.
Defined.
